(** * PIP VC Service: credential encoders, pod persistence and the /vc routes

    A shallow embedding of the service's core:
    - [VcService] (services/vcService.js): the JSON-LD and the Turtle encoder
      and the mock proof;
    - [PodService] (services/podService.js): the writes to the subject's pod,
      the credentials index and the access-control document;
    - [VcRoutes] (routes/vc.js): the handlers [post_issue] of POST /vc/issue,
      [get_list] of GET /vc/list and [post_revoke] of POST /vc/revoke.

    [Iri] and [Turtle] hold what the IRI references of the access-control
    document and a Turtle string literal are read against; [Sample] is a
    platform with fixed readings for concrete runs.

    JavaScript values are a datatype [value]; template literals are lists of
    [part]s (the literal text of the template and the values substituted into
    it); asynchronous code that can throw and that touches the clock, the
    random source, the console or the pod is written in the monad [M], state
    passing with exceptions, in which the state survives a throw as it does
    in JavaScript. *)

From Stdlib Require Import String Ascii List Bool ZArith Lia DecimalString.
Import ListNotations.
Local Open Scope string_scope.

(** ** Strings *)

(** The double-quote character, as a one-character string. *)
Definition dq : string := String (ascii_of_nat 34) "".

(** The line feed, as a character and as a one-character string. *)
Definition lf_char : ascii := ascii_of_nat 10.
Definition lf : string := String lf_char "".

(** [mentions needle s]: [needle] occurs in [s] (String.prototype.includes). *)
Fixpoint mentions (needle s : string) : bool :=
  match s with
  | EmptyString => prefix needle EmptyString
  | String _ s' => prefix needle s || mentions needle s'
  end.

(** [occurs c s]: the character [c] occurs in [s]. *)
Fixpoint occurs (c : ascii) (s : string) : bool :=
  match s with
  | EmptyString => false
  | String x s' => Ascii.eqb c x || occurs c s'
  end.

Definition first_char (s : string) : option ascii :=
  match s with
  | EmptyString => None
  | String c _ => Some c
  end.

Fixpoint last_char (s : string) : option ascii :=
  match s with
  | EmptyString => None
  | String c EmptyString => Some c
  | String _ s' => last_char s'
  end.

(** ** JavaScript values *)

#[local] Set Warnings "-register-all".

(** The values the service handles: credential data, request bodies and
    response bodies. Numbers are the integers (status codes, counts). *)
Inductive value : Type :=
| VUndefined
| VNull
| VBool (b : bool)
| VNum (n : Z)
| VStr (s : string)
| VArr (items : list value)
| VObj (props : list (string * value)).

(** ToBoolean: what [if (v)], [!v] and [v || d] test. *)
Definition truthy (v : value) : bool :=
  match v with
  | VUndefined | VNull => false
  | VBool b => b
  | VNum n => negb (n =? 0)%Z
  | VStr s => negb (s =? "")
  | VArr _ | VObj _ => true
  end.

(** ToString: what a template literal does to a substituted value. A
    [VNum n] stands for an integer Number of magnitude below 10^21, which
    JavaScript prints as its decimal digits; from 10^21 on JavaScript prints
    an exponent, which [toStr] does not follow. *)
Fixpoint toStr (v : value) : string :=
  match v with
  | VUndefined => "undefined"
  | VNull => "null"
  | VBool true => "true"
  | VBool false => "false"
  | VNum n => NilZero.string_of_int (Z.to_int n)
  | VStr s => s
  | VArr items =>
      let element (x : value) :=
        match x with
        | VUndefined | VNull => ""
        | _ => toStr x
        end in
      (fix join (l : list value) : string :=
         match l with
         | [] => ""
         | [x] => element x
         | x :: r => element x ++ "," ++ join r
         end) items
  | VObj _ => "[object Object]"
  end.

(** [v == null]: null or undefined, where a property read throws. *)
Definition nullish (v : value) : bool :=
  match v with
  | VUndefined | VNull => true
  | _ => false
  end.

(** [a || b] *)
Definition or_else (a b : value) : value := if truthy a then a else b.

Fixpoint lookup (k : string) (props : list (string * value)) : option value :=
  match props with
  | [] => None
  | (k', x) :: r => if k =? k' then Some x else lookup k r
  end.

(** [o.k] on a value that is not null or undefined. *)
Definition get (o : value) (k : string) : value :=
  match o with
  | VObj props =>
      match lookup k props with
      | Some x => x
      | None => VUndefined
      end
  | _ => VUndefined
  end.

(** [k in o]: the object has the key at all. *)
Definition has_key (o : value) (k : string) : bool :=
  match o with
  | VObj props =>
      match lookup k props with
      | Some _ => true
      | None => false
      end
  | _ => false
  end.

(** [props[k] = x]: an existing key keeps its place, a new one goes last. *)
Fixpoint assign (k : string) (x : value) (props : list (string * value))
  : list (string * value) :=
  match props with
  | [] => [(k, x)]
  | (k', y) :: r => if k =? k' then (k, x) :: r else (k', y) :: assign k x r
  end.

(** [o.k = x] *)
Definition set (o : value) (k : string) (x : value) : value :=
  match o with
  | VObj props => VObj (assign k x props)
  | _ => o
  end.

(** ** Template literals *)

(** A template literal is its quasis (the text written in the template) and
    the values substituted between them, in order. A conditional block
    ([${c ? `...` : ''}]) splices the parts of its nested template, or
    nothing. *)
Inductive part : Type :=
| Quasi (text : string)
| Subst (val : string).

Definition part_text (p : part) : string :=
  match p with
  | Quasi s => s
  | Subst s => s
  end.

Definition render (ps : list part) : string :=
  String.concat "" (map part_text ps).

Definition is_quasi (p : part) : bool :=
  match p with
  | Quasi _ => true
  | Subst _ => false
  end.

(** No quasi of the template mentions [needle]: the template's own text does
    not, whatever is substituted. *)
Definition quasis_free (needle : string) (ps : list part) : bool :=
  forallb (fun p => negb (is_quasi p && mentions needle (part_text p))) ps.

(** No substituted value mentions [needle]. *)
Definition substs_free (needle : string) (ps : list part) : bool :=
  forallb (fun p => is_quasi p || negb (mentions needle (part_text p))) ps.

(** [c] is a character and the needle does not contain it. *)
Definition stops (needle : string) (c : option ascii) : bool :=
  match c with
  | Some c => negb (occurs c needle)
  | None => false
  end.

(** Every seam between two parts is guarded by the template's own text: the
    quasi on one side puts there a character that the needle lacks. *)
Definition seam_left (needle : string) (p : part) : bool :=
  is_quasi p && stops needle (last_char (part_text p)).

Definition seam_right (needle : string) (p : part) : bool :=
  is_quasi p && stops needle (first_char (part_text p)).

Fixpoint guarded (needle : string) (ps : list part) : bool :=
  match ps with
  | [] => true
  | p :: r =>
      match r with
      | [] => true
      | q :: _ => (seam_left needle p || seam_right needle q) && guarded needle r
      end
  end.

(** ** The world outside the service *)

(** What the service reads from its platform. The clock, the uuid generator
    and the random source are indexed by the number of readings taken so far;
    [JSON_stringify v indent] is [JSON.stringify(v, null, indent)], which is
    [undefined] for some values; [URL_resolve rel base] is
    [new URL(rel, base).toString()] and [URL_origin u] is the
    [protocol//host] of [new URL(u)], [None] where the constructor throws.
    [httpPut] stands for the HTTP request that putResource simulates:
    [None] is an acknowledged request, [Some msg] one that throws [msg]; the
    repository's own mock is [httpPut := fun _ => None]. *)
Record Env : Type := {
  SERVICE_DID_WEB : option string;
  DEFAULT_PDS_BASE : option string;
  toISOString : nat -> string;
  uuidv4 : nat -> string;
  randomHex16 : nat -> string;
  sha256hex : string -> string;
  JSON_stringify : value -> nat -> option string;
  URL_resolve : string -> string -> option string;
  URL_origin : string -> option string;
  httpPut : string -> option string
}.

(** [process.env.X] as a value. *)
Definition env_value (x : option string) : value :=
  match x with
  | Some s => VStr s
  | None => VUndefined
  end.

(** One acknowledged PUT: url, content, media type. *)
Record PodWrite : Type := {
  pw_url : string;
  pw_content : string;
  pw_type : string
}.

(** The state the service changes: how often the clock, the uuid generator
    and the random source were read; the PUTs the pod acknowledged, oldest
    first; the console.error calls (label and message), oldest first.
    console.log lines are not recorded. *)
Record World : Type := {
  clock : nat;
  uuids : nat;
  randoms : nat;
  pod : list PodWrite;
  errors : list (string * string)
}.

Definition world0 : World :=
  {| clock := 0; uuids := 0; randoms := 0; pod := []; errors := [] |}.

(** ** Computations that can throw *)

(** A thrown Error is its message. The world after a throw is the world at
    the throw: nothing is rolled back. *)
Definition M (A : Type) : Type := World -> (string + A) * World.

Definition ret {A : Type} (a : A) : M A := fun w => (inr a, w).

Definition throw {A : Type} (msg : string) : M A := fun w => (inl msg, w).

Definition bind {A B : Type} (c : M A) (k : A -> M B) : M B :=
  fun w =>
    match c w with
    | (inr a, w') => k a w'
    | (inl e, w') => (inl e, w')
    end.

(** [try { c } catch (error) { h error.message }] *)
Definition try_catch {A : Type} (c : M A) (h : string -> M A) : M A :=
  fun w =>
    match c w with
    | (inr a, w') => (inr a, w')
    | (inl e, w') => h e w'
    end.

Declare Scope js_scope.
Delimit Scope js_scope with js.
Notation "x <- c ;; k" := (bind c (fun x => k))
  (at level 61, c at next level, right associativity) : js_scope.
Notation "c ;;; k" := (bind c (fun _ => k))
  (at level 61, right associativity) : js_scope.
Local Open Scope js_scope.

(** [console.error(label, error)] *)
Definition console_error (label msg : string) : M unit :=
  fun w =>
    (inr tt,
     {| clock := clock w; uuids := uuids w; randoms := randoms w;
        pod := pod w; errors := (errors w ++ [(label, msg)])%list |}).

Section Platform.

Variable E : Env.

(** [new Date().toISOString()] *)
Definition Date_now : M string :=
  fun w =>
    (inr (toISOString E (clock w)),
     {| clock := S (clock w); uuids := uuids w; randoms := randoms w;
        pod := pod w; errors := errors w |}).

(** [uuidv4()] *)
Definition uuid_next : M string :=
  fun w =>
    (inr (uuidv4 E (uuids w)),
     {| clock := clock w; uuids := S (uuids w); randoms := randoms w;
        pod := pod w; errors := errors w |}).

(** [crypto.randomBytes(16).toString('hex')] *)
Definition random_next : M string :=
  fun w =>
    (inr (randomHex16 E (randoms w)),
     {| clock := clock w; uuids := uuids w; randoms := S (randoms w);
        pod := pod w; errors := errors w |}).

(** [new URL(rel, base).toString()] *)
Definition new_URL (rel base : string) : M string :=
  match URL_resolve E rel base with
  | Some u => ret u
  | None => throw "Invalid URL"
  end.

(** The request behind putResource; an acknowledged one is recorded. *)
Definition http_PUT (url content contentType : string) : M unit :=
  match httpPut E url with
  | Some msg => throw msg
  | None =>
      fun w =>
        (inr tt,
         {| clock := clock w; uuids := uuids w; randoms := randoms w;
            pod := (pod w ++ [{| pw_url := url; pw_content := content;
                                pw_type := contentType |}])%list;
            errors := errors w |})
  end.

End Platform.

(** ** services/vcService.js *)

Module VcService.

(** The award data of a credential; an absent field is [VUndefined]. *)
Record BenefitData : Type := {
  benefitType : value;
  amount : value;
  assessmentDate : value;
  components : value;
  totalWeeklyAmount : value
}.

(** The argument of both encoders. *)
Record VcData : Type := {
  id : value;
  webid : value;
  benefitData : BenefitData;
  preview : value
}.

(** [const { ..., preview = false } = vcData]: the default stands in for
    [undefined] only. *)
Definition preview_flag (vcData : VcData) : value :=
  match preview vcData with
  | VUndefined => VBool false
  | v => v
  end.

(** The same credential data with another components breakdown. *)
Definition with_components (vcData : VcData) (c : value) : VcData :=
  {| id := id vcData;
     webid := webid vcData;
     benefitData :=
       {| benefitType := benefitType (benefitData vcData);
          amount := amount (benefitData vcData);
          assessmentDate := assessmentDate (benefitData vcData);
          components := c;
          totalWeeklyAmount := totalWeeklyAmount (benefitData vcData) |};
     preview := preview vcData |}.

(** [o.k1.k2 = x] *)
Definition set_in (o : value) (k1 k2 : string) (x : value) : value :=
  set o k1 (set (get o k1) k2 x).

Section Encoders.

Variable E : Env.

(** [process.env.SERVICE_DID_WEB || 'did:web:pip.gov.uk'] *)
Definition issuer : value :=
  or_else (env_value (SERVICE_DID_WEB E)) (VStr "did:web:pip.gov.uk").

(** [`${process.env.SERVICE_DID_WEB}#key-1`] *)
Definition verificationMethod : string :=
  render [Subst (toStr (env_value (SERVICE_DID_WEB E))); Quasi "#key-1"].

Definition generateMockSignature (vc : value) : M string :=
  match JSON_stringify E vc 0 with
  | Some vcString =>
      let hash := sha256hex E vcString in
      ret (render [Quasi "mock-jws-signature-"; Subst (substring 0 16 hash)])
  | None =>
      throw ("The " ++ dq ++ "data" ++ dq ++ " argument must be of type string or an instance of Buffer, TypedArray, or DataView. Received undefined")
  end.

Definition generateProof (vc : value) : M value :=
  created <- Date_now E ;;
  jws <- generateMockSignature vc ;;
  ret (VObj [ ("type", VStr "RsaSignature2018");
              ("created", VStr created);
              ("proofPurpose", VStr "assertionMethod");
              ("verificationMethod", VStr verificationMethod);
              ("jws", VStr jws) ]).

Definition generateJsonLdVc (vcData : VcData) : M value :=
  let b := benefitData vcData in
  issuanceDate <- Date_now E ;;
  let vc :=
    VObj [ ("@context",
            VArr [ VStr "https://www.w3.org/2018/credentials/v1";
                   VStr "https://schema.org/";
                   VObj [ ("PIPBenefitCredential", VStr "https://gov.uk/schemas/PIPBenefitCredential");
                          ("benefitType", VStr "https://schema.org/name");
                          ("amount", VStr "https://schema.org/amount");
                          ("assessmentDate", VStr "https://schema.org/dateCreated");
                          ("components", VStr "https://gov.uk/schemas/benefitComponents") ] ]);
           ("id", id vcData);
           ("type", VArr [VStr "VerifiableCredential"; VStr "PIPBenefitCredential"]);
           ("issuer", issuer);
           ("issuanceDate", VStr issuanceDate);
           ("credentialSubject",
            VObj [ ("id", webid vcData);
                   ("benefitType", benefitType b);
                   ("amount", amount b);
                   ("assessmentDate", assessmentDate b) ]) ] in
  let vc :=
    if truthy (components b)
    then set_in vc "credentialSubject" "components" (components b)
    else vc in
  let vc :=
    if truthy (totalWeeklyAmount b)
    then set_in vc "credentialSubject" "totalWeeklyAmount" (totalWeeklyAmount b)
    else vc in
  if negb (truthy (preview_flag vcData))
  then proof <- generateProof vc ;; ret (set vc "proof" proof)
  else ret vc.

(** The nested template of the total, spliced when the total is truthy. *)
Definition totalParts (b : BenefitData) : list part :=
  if truthy (totalWeeklyAmount b)
  then [ Quasi (" ;
    schema:totalAmount " ++ dq);
         Subst (toStr (totalWeeklyAmount b));
         Quasi dq ]
  else [].

(** The nested template of the proof block. *)
Definition proofParts (created random : string) : list part :=
  [ Quasi (" ;
    cred:proof [
        a cred:Proof ;
        cred:type " ++ dq ++ "RsaSignature2018" ++ dq ++ " ;
        cred:created " ++ dq);
    Subst created;
    Quasi (dq ++ "^^xsd:dateTime ;
        cred:proofPurpose " ++ dq ++ "assertionMethod" ++ dq ++ " ;
        cred:verificationMethod <");
    Subst (toStr (env_value (SERVICE_DID_WEB E)));
    Quasi ("#key-1> ;
        cred:jws " ++ dq ++ "mock-signature-");
    Subst random;
    Quasi (dq ++ "
    ]") ].

(** The template of generateTurtleVc, with the two clock readings and the
    parts of the proof block (none for a preview). *)
Definition turtleParts (vcData : VcData) (issuanceDate created : string)
  (proofBlock : list part) : list part :=
  let b := benefitData vcData in
  ([ Quasi "@prefix cred: <https://www.w3.org/2018/credentials#> .
@prefix schema: <http://schema.org/> .
@prefix xsd: <http://www.w3.org/2001/XMLSchema#> .
@prefix dc: <http://purl.org/dc/terms/> .
@prefix rdf: <http://www.w3.org/1999/02/22-rdf-syntax-ns#> .

<";
     Subst (toStr (id vcData));
     Quasi ">
    a cred:VerifiableCredential ;
    rdf:type <https://gov.uk/schemas/PIPBenefitCredential> ;
    cred:issuer <";
     Subst (toStr issuer);
     Quasi "> ;
    cred:credentialSubject <";
     Subst (toStr (webid vcData));
     Quasi ("> ;
    cred:issuanceDate " ++ dq);
     Subst issuanceDate;
     Quasi (dq ++ "^^xsd:dateTime ;
    dc:created " ++ dq);
     Subst created;
     Quasi (dq ++ "^^xsd:dateTime ;
    dc:title " ++ dq ++ "PIP Benefit Award Credential" ++ dq ++ " ;
    dc:creator <");
     Subst (toStr issuer);
     Quasi ("> ;
    schema:benefitType " ++ dq);
     Subst (toStr (benefitType b));
     Quasi (dq ++ " ;
    schema:amount " ++ dq);
     Subst (toStr (amount b));
     Quasi (dq ++ " ;
    schema:dateCreated " ++ dq);
     Subst (toStr (assessmentDate b));
     Quasi (dq ++ "^^xsd:dateTime") ]
   ++ totalParts b
   ++ proofBlock
   ++ [ Quasi " ." ])%list.

Definition generateTurtleVc (vcData : VcData) : M string :=
  issuanceDate <- Date_now E ;;
  created <- Date_now E ;;
  proofBlock <-
    (if negb (truthy (preview_flag vcData))
     then proofCreated <- Date_now E ;;
          random <- random_next E ;;
          ret (proofParts proofCreated random)
     else ret []) ;;
  ret (render (turtleParts vcData issuanceDate created proofBlock)).

End Encoders.

End VcService.

(** ** services/podService.js *)

Module PodService.

(** The two encodings handed to storeCredential. *)
Record StoredVc : Type := {
  jsonLd : value;
  turtle : value
}.

(** What putResource returns. *)
Record PutResponse : Type := {
  put_status : Z;
  put_location : string;
  put_content_type : string
}.

(** [o.k] where [o] may be null or undefined: the TypeError of the runtime. *)
Definition read_prop (o : value) (k : string) : M value :=
  match o with
  | VUndefined =>
      throw ("Cannot read properties of undefined (reading '" ++ k ++ "')")
  | VNull =>
      throw ("Cannot read properties of null (reading '" ++ k ++ "')")
  | _ => ret (get o k)
  end.

Section Pod.

Variable E : Env.

(** [process.env.DEFAULT_PDS_BASE || 'https://pds.solid.example.org'] *)
Definition default_pds_base : value :=
  or_else (env_value (DEFAULT_PDS_BASE E)) (VStr "https://pds.solid.example.org").

Definition discoverPodUrl (webid : value) : M value :=
  try_catch
    (match URL_origin E (toStr webid) with
     | Some baseUrl => ret (VStr (render [Subst baseUrl; Quasi "/storage/"]))
     | None => throw "Invalid URL"
     end)
    (fun error =>
       console_error "Pod discovery error:" error ;;;
       ret default_pds_base).

(** The three console.log lines read [content.length] and [user.webid];
    then comes the request that the mock simulates. *)
Definition putResource (url : string) (content : value) (contentType : string)
  (user : value) : M PutResponse :=
  try_catch
    (read_prop content "length" ;;;
     read_prop user "webid" ;;;
     http_PUT E url (toStr content) contentType ;;;
     ret {| put_status := 201; put_location := url;
            put_content_type := contentType |})
    (fun error => throw (render [Quasi "HTTP PUT failed: "; Subst error])).

(** The template of the index entry. *)
Definition indexParts (container vcId created1 created2 : string) : list part :=
  [ Quasi "
@prefix ldp: <http://www.w3.org/ns/ldp#> .
@prefix dc: <http://purl.org/dc/terms/> .
@prefix cred: <https://www.w3.org/2018/credentials#> .

<";
    Subst container;
    Quasi ">
    ldp:contains <";
    Subst vcId;
    Quasi ".jsonld> , <";
    Subst vcId;
    Quasi ".ttl> .

<";
    Subst vcId;
    Quasi (".jsonld>
    a cred:VerifiableCredential ;
    dc:title " ++ dq ++ "PIP Benefit Award Credential (JSON-LD)" ++ dq ++ " ;
    dc:created " ++ dq);
    Subst created1;
    Quasi (dq ++ "^^<http://www.w3.org/2001/XMLSchema#dateTime> ;
    dc:format " ++ dq ++ "application/ld+json" ++ dq ++ " .

<");
    Subst vcId;
    Quasi (".ttl>
    a cred:VerifiableCredential ;
    dc:title " ++ dq ++ "PIP Benefit Award Credential (Turtle)" ++ dq ++ " ;
    dc:created " ++ dq);
    Subst created2;
    Quasi (dq ++ "^^<http://www.w3.org/2001/XMLSchema#dateTime> ;
    dc:format " ++ dq ++ "text/turtle" ++ dq ++ " .
") ].

Definition updateCredentialsIndex (podUrl : value) (vcId : string) (user : value)
  : M unit :=
  try_catch
    (indexUrl <- new_URL E "credentials/index.ttl" (toStr podUrl) ;;
     container <- new_URL E "credentials/" (toStr podUrl) ;;
     created1 <- Date_now E ;;
     created2 <- Date_now E ;;
     let indexEntry := render (indexParts container vcId created1 created2) in
     putResource indexUrl (VStr indexEntry) "text/turtle" user ;;;
     ret tt)
    (fun error => console_error "Index update error:" error).

(** The template of the access-control document. *)
Definition aclParts (webid vcId : string) : list part :=
  [ Quasi "
@prefix acl: <http://www.w3.org/ns/auth/acl#> .
@prefix : <#> .

:owner
    a acl:Authorization ;
    acl:agent <";
    Subst webid;
    Quasi "> ;
    acl:accessTo <";
    Subst vcId;
    Quasi ".jsonld> , <";
    Subst vcId;
    Quasi ".ttl> ;
    acl:mode acl:Read , acl:Write , acl:Control .

:eonAccess
    a acl:Authorization ;
    acl:agent <https://eon.co.uk/did.json> ;
    acl:accessTo <";
    Subst vcId;
    Quasi ".jsonld> , <";
    Subst vcId;
    Quasi ".ttl> ;
    acl:mode acl:Read .

:publicRead
    a acl:Authorization ;
    acl:agentClass acl:AuthenticatedAgent ;
    acl:accessTo <";
    Subst vcId;
    Quasi ".jsonld> , <";
    Subst vcId;
    Quasi ".ttl> ;
    acl:mode acl:Read .
" ].

Definition setCredentialPermissions (podUrl : value) (vcId : string) (user : value)
  : M unit :=
  try_catch
    (aclUrl <- new_URL E (render [Quasi "credentials/"; Subst vcId; Quasi ".jsonld.acl"])
                 (toStr podUrl) ;;
     webid <- read_prop user "webid" ;;
     let acl := render (aclParts (toStr webid) vcId) in
     putResource aclUrl (VStr acl) "text/turtle" user ;;;
     ret tt)
    (fun error => console_error "Permission setting error:" error).

(** [JSON.stringify(jsonLd, null, 2)] as a value. *)
Definition stringify2 (v : value) : value :=
  match JSON_stringify E v 2 with
  | Some s => VStr s
  | None => VUndefined
  end.

Definition storeCredential (podUrl : value) (vcId : string) (vcData : StoredVc)
  (user : value) : M value :=
  try_catch
    (let credentialPath := render [Quasi "credentials/"; Subst vcId] in
     fullUrl <- new_URL E credentialPath (toStr podUrl) ;;
     putResource (render [Subst fullUrl; Quasi ".jsonld"])
       (stringify2 (jsonLd vcData)) "application/ld+json" user ;;;
     putResource (render [Subst fullUrl; Quasi ".ttl"])
       (turtle vcData) "text/turtle" user ;;;
     updateCredentialsIndex podUrl vcId user ;;;
     setCredentialPermissions podUrl vcId user ;;;
     ret (VObj [ ("success", VBool true);
                 ("locations",
                  VObj [ ("jsonld", VStr (render [Subst fullUrl; Quasi ".jsonld"]));
                         ("turtle", VStr (render [Subst fullUrl; Quasi ".ttl"])) ]) ]))
    (fun error =>
       console_error "Pod storage error:" error ;;;
       throw (render [Quasi "Failed to store credential: "; Subst error])).

End Pod.

End PodService.

(** ** routes/vc.js *)

Module VcRoutes.

(** A request as the handlers see it: the auth middleware in front of the
    router has set [req.user] to an object with a truthy webid, and the body
    parser has left an object in [req.body]. *)
Record Request : Type := {
  req_user : value;
  req_body : value
}.

(** [res.status(s).json(b)] *)
Record Response : Type := {
  res_status : Z;
  res_json : value
}.

Section Handlers.

Variable E : Env.

(** The award data of POST /vc/issue. *)
Definition issueBenefitData : VcService.BenefitData :=
  {| VcService.benefitType := VStr "PIP";
     VcService.amount := VStr "£90.10/week";
     VcService.assessmentDate := VStr "2025-01-15";
     VcService.totalWeeklyAmount := VStr "£162.90";
     VcService.components :=
       VObj [ ("dailyLiving", VStr "Standard - £68.10");
              ("mobility", VStr "Enhanced - £94.80") ] |}.

Definition post_issue (req : Request) : M Response :=
  let webid := get (req_user req) "webid" in
  let confirm := get (req_body req) "confirm" in
  let podUrl := get (req_body req) "podUrl" in
  if negb (truthy confirm)
  then ret {| res_status := 400;
              res_json :=
                VObj [ ("error", VStr "Confirmation required");
                       ("message", VStr "Must confirm VC issuance by setting confirm: true") ] |}
  else
    try_catch
      (uuid <- uuid_next E ;;
       let vcId := render [Quasi "urn:uuid:"; Subst uuid] in
       let benefitData := issueBenefitData in
       let vcData :=
         {| VcService.id := VStr vcId;
            VcService.webid := webid;
            VcService.benefitData := benefitData;
            VcService.preview := VBool false |} in
       jsonLdVc <- VcService.generateJsonLdVc E vcData ;;
       turtleVc <- VcService.generateTurtleVc E vcData ;;
       targetPodUrl <-
         (if truthy podUrl then ret podUrl else PodService.discoverPodUrl E webid) ;;
       storageResult <-
         PodService.storeCredential E targetPodUrl vcId
           {| PodService.jsonLd := jsonLdVc; PodService.turtle := VStr turtleVc |}
           (req_user req) ;;
       issuanceDate <- Date_now E ;;
       ret {| res_status := 201;
              res_json :=
                VObj [ ("success", VBool true);
                       ("vcId", VStr vcId);
                       ("vc", jsonLdVc);
                       ("storageLocation",
                        VStr (render [Subst (toStr targetPodUrl); Quasi "/credentials/";
                                      Subst vcId]));
                       ("issuanceDate", VStr issuanceDate);
                       ("formats", VArr [VStr "application/ld+json"; VStr "text/turtle"]);
                       ("metadata",
                        VObj [ ("issuer", env_value (SERVICE_DID_WEB E));
                               ("subject", webid);
                               ("benefitType", VcService.benefitType benefitData);
                               ("amount", VcService.amount benefitData);
                               ("signature",
                                if truthy (get (get jsonLdVc "proof") "jws")
                                then VStr "present" else VStr "mock") ]) ] |})
      (fun error =>
         console_error "VC issuance error:" error ;;;
         ret {| res_status := 500;
                res_json := VObj [ ("error", VStr "VC issuance failed");
                                   ("message", VStr error) ] |}).

(** The registry that GET /vc/list answers from: a fixed list. *)
Definition mockVcList : list value :=
  [ VObj [ ("id", VStr "urn:uuid:pip-benefit-award-001");
           ("type", VStr "PIPBenefitCredential");
           ("issuanceDate", VStr "2025-01-15T10:30:00Z");
           ("status", VStr "active");
           ("benefitType", VStr "PIP");
           ("amount", VStr "£162.90/week");
           ("issuer", env_value (SERVICE_DID_WEB E));
           ("location", VStr "/credentials/urn:uuid:pip-benefit-award-001") ];
    VObj [ ("id", VStr "urn:uuid:pip-benefit-award-002");
           ("type", VStr "PIPBenefitCredential");
           ("issuanceDate", VStr "2024-08-20T14:15:00Z");
           ("status", VStr "superseded");
           ("benefitType", VStr "PIP");
           ("amount", VStr "£142.50/week");
           ("issuer", env_value (SERVICE_DID_WEB E));
           ("location", VStr "/credentials/urn:uuid:pip-benefit-award-002") ] ].

(** [vc.status === 'active'] *)
Definition is_active (vc : value) : bool :=
  match get vc "status" with
  | VStr s => s =? "active"
  | _ => false
  end.

Definition get_list (req : Request) : M Response :=
  let webid := get (req_user req) "webid" in
  ret {| res_status := 200;
         res_json :=
           VObj [ ("webid", webid);
                  ("credentials", VArr mockVcList);
                  ("totalCount", VNum (Z.of_nat (length mockVcList)));
                  ("activeCount",
                   VNum (Z.of_nat (length (filter is_active mockVcList)))) ] |}.

Definition post_revoke (req : Request) : M Response :=
  let vcId := get (req_body req) "vcId" in
  let reason := get (req_body req) "reason" in
  let webid := get (req_user req) "webid" in
  if negb (truthy vcId)
  then ret {| res_status := 400;
              res_json := VObj [ ("error", VStr "Missing VC ID") ] |}
  else if negb (truthy reason)
  then ret {| res_status := 400;
              res_json := VObj [ ("error", VStr "Revocation reason required") ] |}
  else
    try_catch
      (revokedAt <- Date_now E ;;
       ret {| res_status := 200;
              res_json :=
                VObj [ ("success", VBool true);
                       ("vcId", vcId);
                       ("revokedBy", webid);
                       ("reason", reason);
                       ("revokedAt", VStr revokedAt);
                       ("message", VStr "Credential successfully revoked") ] |})
      (fun error =>
         console_error "VC revocation error:" error ;;;
         ret {| res_status := 500;
                res_json := VObj [ ("error", VStr "VC revocation failed");
                                   ("message", VStr error) ] |}).

End Handlers.

End VcRoutes.

(** ** Reading runs and results *)

(** The field [k] of the document a run returned, if it returned one. *)
Definition get_result (r : (string + value) * World) (k : string) : option value :=
  match fst r with
  | inr doc => Some (get doc k)
  | inl _ => None
  end.

(** The status of the response a handler returned. *)
Definition status_of (r : (string + VcRoutes.Response) * World) : option Z :=
  match fst r with
  | inr res => Some (VcRoutes.res_status res)
  | inl _ => None
  end.

(** The body of the response a handler returned. *)
Definition json_of (r : (string + VcRoutes.Response) * World) : option value :=
  match fst r with
  | inr res => Some (VcRoutes.res_json res)
  | inl _ => None
  end.


(** The result object of a store that got both artifacts written. *)
Definition storedResult (fullUrl : string) : value :=
  VObj [ ("success", VBool true);
         ("locations",
          VObj [ ("jsonld", VStr (fullUrl ++ ".jsonld"));
                 ("turtle", VStr (fullUrl ++ ".ttl")) ]) ].

(** How a best-effort step leaves the world: it wrote one resource, or it
    logged one error under its label; it never throws. *)
Inductive step_outcome (label : string) (w w' : World) : Prop :=
| step_written (wr : PodWrite) :
    pod w' = (pod w ++ [wr])%list -> errors w' = errors w ->
    step_outcome label w w'
| step_logged (e : string) :
    pod w' = pod w -> errors w' = (errors w ++ [(label, e)])%list ->
    step_outcome label w w'.

(** The content of the resource the pod last received at [url]. *)
Definition content_at (url : string) (writes : list PodWrite) : option string :=
  match find (fun wr => pw_url wr =? url) (rev writes) with
  | Some wr => Some (pw_content wr)
  | None => None
  end.

(** ** IRI references *)

(** What an IRI reference in a document denotes (RFC 3986): a reference
    that starts with a scheme is absolute and is its own target, whatever
    the address of the document it stands in; only a reference without a
    scheme is resolved against that address. *)
Module Iri.

Definition is_alpha (c : ascii) : bool :=
  let n := nat_of_ascii c in
  (Nat.leb 65 n && Nat.leb n 90) || (Nat.leb 97 n && Nat.leb n 122).

Definition is_digit (c : ascii) : bool :=
  let n := nat_of_ascii c in
  Nat.leb 48 n && Nat.leb n 57.

(** RFC 3986, 3.1: scheme = ALPHA *( ALPHA / DIGIT / "+" / "-" / "." ) *)
Definition is_scheme_char (c : ascii) : bool :=
  is_alpha c || is_digit c || existsb (Ascii.eqb c) ["+"; "-"; "."]%char.

(** The rest of a scheme, up to its colon. *)
Fixpoint scheme_tail (s : string) : bool :=
  match s with
  | EmptyString => false
  | String c r =>
      if Ascii.eqb c ":" then true
      else if is_scheme_char c then scheme_tail r
      else false
  end.

(** The reference starts with a scheme and a colon. *)
Definition has_scheme (ref : string) : bool :=
  match ref with
  | EmptyString => false
  | String c r => is_alpha c && scheme_tail r
  end.

(** RFC 3986, 5.2.2, for the references met here: one with a scheme is its
    own target (it has no dot segments to remove); one that is a fragment
    only is the base with that fragment. Other relative references are not
    resolved by this model. *)
Definition target (base ref : string) : option string :=
  if has_scheme ref then Some ref
  else
    match ref with
    | String c _ => if Ascii.eqb c "#" then Some (base ++ ref) else None
    | EmptyString => None
    end.

(** The IRI references of a Turtle text without string literals and
    comments: what stands between an opening and the next closing angle
    bracket, in the order of the text. *)
Fixpoint refs_from (inside : option string) (s : string) : list string :=
  match s with
  | EmptyString => []
  | String c r =>
      match inside with
      | None =>
          if Ascii.eqb c "<" then refs_from (Some EmptyString) r
          else refs_from None r
      | Some acc =>
          if Ascii.eqb c ">" then acc :: refs_from None r
          else refs_from (Some (acc ++ String c EmptyString)) r
      end
  end.

Definition refs (text : string) : list string := refs_from None text.

End Iri.

(** ** Turtle string literals *)

(** The grammar of a quoted string literal in Turtle (W3C Turtle 1.1, with
    DQUOTE for the double quote and BSLASH for the backslash):
    STRING_LITERAL_QUOTE ::= DQUOTE ([^ DQUOTE BSLASH LF CR] | ECHAR | UCHAR)* DQUOTE,
    ECHAR ::= BSLASH [t b n r f DQUOTE QUOTE BSLASH],
    UCHAR ::= BSLASH u HEX{4} | BSLASH U HEX{8}. *)
Module Turtle.

Definition quote_char : ascii := ascii_of_nat 34.
Definition backslash : ascii := ascii_of_nat 92.
Definition cr_char : ascii := ascii_of_nat 13.

Definition is_hex (c : ascii) : bool :=
  let n := nat_of_ascii c in
  (Nat.leb 48 n && Nat.leb n 57) || (Nat.leb 65 n && Nat.leb n 70)
  || (Nat.leb 97 n && Nat.leb n 102).

Definition is_echar (c : ascii) : bool :=
  existsb (Ascii.eqb c)
    ["t"; "b"; "n"; "r"; "f"; quote_char; "'"; backslash]%char.

(** The rest of a literal after its opening quote: characters and escapes,
    then the closing quote, then nothing. *)
Fixpoint literal_tail (s : string) : bool :=
  match s with
  | EmptyString => false
  | String c r =>
      if Ascii.eqb c quote_char then
        match r with
        | EmptyString => true
        | String _ _ => false
        end
      else if Ascii.eqb c backslash then
        match r with
        | EmptyString => false
        | String e r1 =>
            if is_echar e then literal_tail r1
            else if Ascii.eqb e "u" then
              match r1 with
              | String h1 (String h2 (String h3 (String h4 r2))) =>
                  is_hex h1 && is_hex h2 && is_hex h3 && is_hex h4
                  && literal_tail r2
              | _ => false
              end
            else if Ascii.eqb e "U" then
              match r1 with
              | String h1 (String h2 (String h3 (String h4
                  (String h5 (String h6 (String h7 (String h8 r2))))))) =>
                  is_hex h1 && is_hex h2 && is_hex h3 && is_hex h4
                  && is_hex h5 && is_hex h6 && is_hex h7 && is_hex h8
                  && literal_tail r2
              | _ => false
              end
            else false
        end
      else if Ascii.eqb c lf_char || Ascii.eqb c cr_char then false
      else literal_tail r
  end.

Definition STRING_LITERAL_QUOTE (s : string) : bool :=
  match s with
  | EmptyString => false
  | String c r => Ascii.eqb c quote_char && literal_tail r
  end.

End Turtle.

(** ** A sample platform

    Fixed readings for concrete runs: the clock advances by one second per
    reading, every request to the pod is acknowledged (the repository's mock),
    URLs resolve by concatenation onto a base that ends in a slash. The
    digest is a constant and the serializer ignores the indentation: no
    property below depends on what they compute. *)

Module Sample.

Definition digit (n : nat) : string :=
  NilZero.string_of_uint (Nat.to_uint (n mod 10)).

(** A compact JSON text of a value: strings go between quotes as they are,
    an undefined property is left out, an undefined element is null. *)
Fixpoint stringify (v : value) : option string :=
  match v with
  | VUndefined => None
  | VStr s => Some (dq ++ s ++ dq)
  | VArr items =>
      Some ("[" ++ String.concat ","
                     (map (fun x => match stringify x with
                                    | Some t => t
                                    | None => "null"
                                    end) items) ++ "]")
  | VObj props =>
      Some ("{" ++ String.concat ","
                     (flat_map (fun kx : string * value => let (k, x) := kx in
                                          match stringify x with
                                          | Some t => [dq ++ k ++ dq ++ ":" ++ t]
                                          | None => @nil string
                                          end) props) ++ "}")
  | _ => Some (toStr v)
  end.

Definition env : Env :=
  {| SERVICE_DID_WEB := Some "did:web:pip.gov.uk";
     DEFAULT_PDS_BASE := None;
     toISOString := fun n => "2025-01-15T10:30:0" ++ digit n ++ ".000Z";
     uuidv4 := fun n => "3f2b8c1e-5d4a-4e6f-9a7b-00000000000" ++ digit n;
     randomHex16 := fun _ => "000102030405060708090a0b0c0d0e0f";
     sha256hex := fun _ =>
       "9f86d081884c7d659a2feaa0c55ad015a3bf4f1b2b0b822cd15d6c15b0f00a08";
     JSON_stringify := fun v _ => stringify v;
     URL_resolve := fun rel base => Some (base ++ rel);
     URL_origin := fun _ => Some "https://user.example.org";
     httpPut := fun _ => None |}.

(** Another platform: the same as [env] but for a pod that refuses every PUT
    of the index. The repository's putResource sends no request, so no run
    of the service meets such a pod; this platform only serves to vary what
    the encoders must not depend on. *)
Definition env_index_down : Env :=
  {| SERVICE_DID_WEB := SERVICE_DID_WEB env;
     DEFAULT_PDS_BASE := DEFAULT_PDS_BASE env;
     toISOString := toISOString env;
     uuidv4 := uuidv4 env;
     randomHex16 := randomHex16 env;
     sha256hex := sha256hex env;
     JSON_stringify := JSON_stringify env;
     URL_resolve := URL_resolve env;
     URL_origin := URL_origin env;
     httpPut := fun url =>
       if mentions "credentials/index.ttl" url
       then Some "Request failed with status code 503"
       else None |}.

Definition user : value :=
  VObj [ ("webid", VStr "https://user.example.org/profile/card#me");
         ("sub", VStr "test-user");
         ("iss", VStr "http://localhost:3100");
         ("aud", VStr "pip.gov.uk") ].

(** The credential data of unit test and preview, as a preview. *)
Definition previewData : VcService.VcData :=
  {| VcService.id := VStr "urn:uuid:test-vc";
     VcService.webid := VStr "https://user.example.org/profile/card#me";
     VcService.benefitData :=
       {| VcService.benefitType := VStr "PIP";
          VcService.amount := VStr "£90.10/week";
          VcService.assessmentDate := VStr "2025-01-15";
          VcService.components := VUndefined;
          VcService.totalWeeklyAmount := VUndefined |};
     VcService.preview := VBool true |}.

(** The credential data that POST /vc/issue builds for the first id. *)
Definition issuedData : VcService.VcData :=
  {| VcService.id := VStr "urn:uuid:3f2b8c1e-5d4a-4e6f-9a7b-000000000000";
     VcService.webid := VStr "https://user.example.org/profile/card#me";
     VcService.benefitData := VcRoutes.issueBenefitData;
     VcService.preview := VBool false |}.

(** A preview whose benefit type contains double quotes. *)
Definition quotedData : VcService.VcData :=
  {| VcService.id := VStr "urn:uuid:test-vc";
     VcService.webid := VStr "https://user.example.org/profile/card#me";
     VcService.benefitData :=
       {| VcService.benefitType :=
            VStr ("Personal " ++ dq ++ "Independence" ++ dq ++ " Payment");
          VcService.amount := VStr "£90.10/week";
          VcService.assessmentDate := VStr "2025-01-15";
          VcService.components := VUndefined;
          VcService.totalWeeklyAmount := VUndefined |};
     VcService.preview := VBool true |}.


(** The unit test's store, but with no Turtle text to write. *)
Definition storeWithoutTurtle : PodService.StoredVc :=
  {| PodService.jsonLd := VObj [("test", VStr "data")];
     PodService.turtle := VUndefined |}.

End Sample.

(** ** services/vcService.js: validation and conversion *)

Module VcFormats.

(** [v === s] for a string literal [s]. *)
Definition is_string (v : value) (s : string) : bool :=
  match v with
  | VStr t => t =? s
  | _ => false
  end.

(** The fields validateVc requires, in the order it tests them. *)
Definition required : list string :=
  ["@context"; "id"; "type"; "issuer"; "issuanceDate"; "credentialSubject"].

(** [t.includes(x)] for a truthy [t]: an array holds the string, a string
    contains it, and nothing else has the method. *)
Definition type_includes (t : value) (x : string) : M bool :=
  match t with
  | VArr items => ret (existsb (fun v => is_string v x) items)
  | VStr s => ret (mentions x s)
  | _ => throw "vc.type.includes is not a function"
  end.

Section Formats.

Variable E : Env.

(** [JSON.parse(text)]: the value, or the message of the SyntaxError. *)
Variable JSON_parse : string -> string + value.

Definition validateVc (vc : value) : M bool :=
  PodService.read_prop vc "@context" ;;;
  match find (fun field => negb (truthy (get vc field))) required with
  | Some field => throw (render [Quasi "Missing required field: "; Subst field])
  | None =>
      if negb (truthy (get (get vc "credentialSubject") "id"))
      then throw "Missing credentialSubject.id"
      else
        includes <- type_includes (get vc "type") "VerifiableCredential" ;;
        if negb includes
        then throw "VC must include VerifiableCredential type"
        else ret true
  end.



End Formats.

End VcFormats.

(** ** services/podService.js: reading, listing and deleting *)

Module PodResources.

(** [url.split('/').pop()]: the text after the last slash. *)
Fixpoint last_segment (s : string) : string :=
  match s with
  | EmptyString => EmptyString
  | String c r =>
      if occurs "/" r then last_segment r
      else if Ascii.eqb c "/" then r
      else s
  end.


Section Resources.

Variable E : Env.

(** The mock never looks into the pod: it answers with a fixed credential
    named after the last segment of the url. *)
Definition getResource (url : string) (user acceptType : value) : M value :=
  let acceptType :=
    match acceptType with
    | VUndefined => VStr "application/ld+json"
    | v => v
    end in
  try_catch
    (webid <- PodService.read_prop user "webid" ;;
     let mockCredential :=
       VObj [ ("@context", VArr [VStr "https://www.w3.org/2018/credentials/v1"]);
              ("id", VStr (last_segment url));
              ("type", VArr [VStr "VerifiableCredential"; VStr "PIPBenefitCredential"]);
              ("issuer", env_value (SERVICE_DID_WEB E));
              ("credentialSubject",
               VObj [ ("id", webid);
                      ("benefitType", VStr "PIP");
                      ("amount", VStr "£90.10/week") ]) ] in
     ret (VObj [ ("status", VNum 200);
                 ("data", mockCredential);
                 ("headers", VObj [("content-type", acceptType)]) ]))
    (fun error => throw (render [Quasi "HTTP GET failed: "; Subst error])).



Definition listCredentials (podUrl user : value) : M value :=
  try_catch
    (indexUrl <- new_URL E "credentials/index.ttl" (toStr podUrl) ;;
     ret (VArr [ VObj [ ("id", VStr "urn:uuid:pip-benefit-001");
                        ("title", VStr "PIP Benefit Award Credential");
                        ("created", VStr "2025-01-15T10:30:00Z");
                        ("formats",
                         VArr [VStr "application/ld+json"; VStr "text/turtle"]) ] ]))
    (fun error =>
       throw (render [Quasi "Failed to list credentials: "; Subst error])).

End Resources.

End PodResources.

(** ** routes/vc.js: preview and lookup *)

Module VcViews.

(** What a handler sends: the status, the Content-Type it set itself (if it
    set one) and the body. *)
Record Reply : Type := {
  reply_status : Z;
  reply_content_type : option string;
  reply_body : value
}.

(** The award data of GET /vc/preview. *)
Definition previewBenefitData : VcService.BenefitData :=
  {| VcService.benefitType := VStr "PIP";
     VcService.amount := VStr "£90.10/week";
     VcService.assessmentDate := VStr "2025-01-15";
     VcService.components :=
       VArr [VStr "Daily Living - Standard"; VStr "Mobility - Enhanced"];
     VcService.totalWeeklyAmount := VUndefined |}.

(** [acceptHeader.includes(x)] *)
Definition accept_includes (acceptHeader : value) (x : string) : M bool :=
  match acceptHeader with
  | VStr s => ret (mentions x s)
  | VArr items => ret (existsb (fun v => VcFormats.is_string v x) items)
  | _ => throw "acceptHeader.includes is not a function"
  end.

Section Views.

Variable E : Env.

(** GET /vc/preview; [accept] is [req.headers.accept]. *)
Definition get_preview (req : VcRoutes.Request) (accept : value) : M Reply :=
  let webid := get (VcRoutes.req_user req) "webid" in
  let benefitData := previewBenefitData in
  uuid <- uuid_next E ;;
  let vcId := render [Quasi "urn:uuid:"; Subst uuid] in
  let vcData :=
    {| VcService.id := VStr vcId;
       VcService.webid := webid;
       VcService.benefitData := benefitData;
       VcService.preview := VBool true |} in
  jsonLdVc <- VcService.generateJsonLdVc E vcData ;;
  turtleVc <- VcService.generateTurtleVc E vcData ;;
  let acceptHeader := or_else accept (VStr "") in
  wantsJsonLd <- accept_includes acceptHeader "application/ld+json" ;;
  if wantsJsonLd
  then ret {| reply_status := 200;
              reply_content_type := Some "application/ld+json";
              reply_body := jsonLdVc |}
  else
    wantsTurtle <- accept_includes acceptHeader "text/turtle" ;;
    if wantsTurtle
    then ret {| reply_status := 200;
                reply_content_type := Some "text/turtle";
                reply_body := VStr turtleVc |}
    else
      issuanceDate <- Date_now E ;;
      ret {| reply_status := 200;
             reply_content_type := None;
             reply_body :=
               VObj [ ("id", VStr vcId);
                      ("preview", VBool true);
                      ("formats",
                       VObj [ ("application/ld+json", jsonLdVc);
                              ("text/turtle", VStr turtleVc) ]);
                      ("metadata",
                       VObj [ ("issuer", env_value (SERVICE_DID_WEB E));
                              ("subject", webid);
                              ("issuanceDate", VStr issuanceDate);
                              ("benefitType", VcService.benefitType benefitData);
                              ("amount", VcService.amount benefitData) ]) ] |}.

(** GET /vc/:vcId; [vcId] is [req.params.vcId]. *)
Definition get_vc (req : VcRoutes.Request) (vcId : string) : M Reply :=
  let webid := get (VcRoutes.req_user req) "webid" in
  ret {| reply_status := 200;
         reply_content_type := None;
         reply_body :=
           VObj [ ("id", VStr vcId);
                  ("type", VStr "PIPBenefitCredential");
                  ("issuer", env_value (SERVICE_DID_WEB E));
                  ("issuanceDate", VStr "2025-01-15T10:30:00Z");
                  ("credentialSubject",
                   VObj [ ("id", webid);
                          ("benefitType", VStr "PIP");
                          ("amount", VStr "£162.90/week");
                          ("components",
                           VObj [ ("dailyLiving", VStr "Standard");
                                  ("mobility", VStr "Enhanced") ]) ]);
                  ("proof",
                   VObj [ ("type", VStr "RsaSignature2018");
                          ("created", VStr "2025-01-15T10:30:00Z");
                          ("proofPurpose", VStr "assertionMethod");
                          ("verificationMethod",
                           VStr (render [Subst (toStr (env_value (SERVICE_DID_WEB E)));
                                         Quasi "#key-1"]));
                          ("jws", VStr "mock-signature-value") ]) ] |}.

End Views.

End VcViews.

(** ** middleware/auth.js *)

Module Auth.

(** [s.split(sep)] for a separator of one character. *)
Fixpoint split_on (sep : ascii) (s : string) : list string :=
  match s with
  | EmptyString => [EmptyString]
  | String c r =>
      if Ascii.eqb c sep then EmptyString :: split_on sep r
      else
        match split_on sep r with
        | h :: t => String c h :: t
        | [] => [String c EmptyString]
        end
  end.

(** [h.split(' ')[1]] *)
Definition bearer_token (h : string) : value :=
  match nth_error (split_on " " h) 1 with
  | Some t => VStr t
  | None => VUndefined
  end.

(** What a middleware does with a request: it answers itself, or it calls
    next() with [req.user] as it then is ([VUndefined] when it was not set). *)
Inductive Outcome : Type :=
| Rejected (res : VcRoutes.Response)
| Next (user : value).

Definition unauthorized (message : string) : Outcome :=
  Rejected {| VcRoutes.res_status := 401;
              VcRoutes.res_json :=
                VObj [ ("error", VStr "Unauthorized");
                       ("message", VStr message) ] |}.

(** [authHeader.startsWith('Bearer ')] for a truthy header. *)
Definition starts_with_bearer (authHeader : value) : M bool :=
  match authHeader with
  | VStr h => ret (prefix "Bearer " h)
  | _ => throw "authHeader.startsWith is not a function"
  end.

(** [{ webid, sub, iss, aud }] of the decoded token. *)
Definition user_of (decoded : value) : value :=
  VObj [ ("webid", get decoded "webid");
         ("sub", get decoded "sub");
         ("iss", get decoded "iss");
         ("aud", get decoded "aud") ].

Section Middleware.

(** [jwt.decode(token)]: the payload, or null. *)
Variable jwt_decode : value -> value.

(** [exp < Date.now() / 1000] and [exp >= Date.now() / 1000], as JavaScript
    compares the token's exp with the clock at the time of the request. *)
Variable lt_now : value -> bool.
Variable ge_now : value -> bool.

Definition token_of (authHeader : value) : value :=
  match authHeader with
  | VStr h => bearer_token h
  | _ => VUndefined
  end.

Definition authMiddleware (authHeader : value) : M Outcome :=
  try_catch
    (if negb (truthy authHeader)
     then ret (unauthorized "Missing or invalid authorization header")
     else
       starts <- starts_with_bearer authHeader ;;
       if negb starts
       then ret (unauthorized "Missing or invalid authorization header")
       else
         let token := token_of authHeader in
         let decoded := jwt_decode token in
         if negb (truthy decoded)
         then ret (unauthorized "Invalid token format")
         else if negb (truthy (get decoded "webid"))
         then ret (unauthorized "Token missing required webid claim")
         else if truthy (get decoded "exp") && lt_now (get decoded "exp")
         then ret (unauthorized "Token has expired")
         else ret (Next (user_of decoded)))
    (fun error =>
       console_error "Auth middleware error:" error ;;;
       ret (unauthorized "Token validation failed")).

Definition optionalAuth (authHeader : value) : M Outcome :=
  try_catch
    (if negb (truthy authHeader)
     then ret (Next VUndefined)
     else
       starts <- starts_with_bearer authHeader ;;
       if negb starts
       then ret (Next VUndefined)
       else
         let token := token_of authHeader in
         let decoded := jwt_decode token in
         if truthy decoded && truthy (get decoded "webid")
            && (negb (truthy (get decoded "exp")) || ge_now (get decoded "exp"))
         then ret (Next (user_of decoded))
         else ret (Next VUndefined))
    (fun _ => ret (Next VUndefined)).

End Middleware.

End Auth.

(** ** middleware/errorHandler.js *)

Module ErrorHandler.

(** [res.status(s).json(b)] with the status as the handler computed it. *)
Record Reply : Type := {
  reply_status : value;
  reply_body : value
}.

(** The local [error] object of errorHandler. *)
Record ErrorInfo : Type := {
  info_status : value;
  info_message : value;
  info_details : value
}.

Section Handler.

(** [process.env.NODE_ENV] *)
Variable NODE_ENV : option string.

Definition errorInfo (err : value) : ErrorInfo :=
  let error :=
    {| info_status := or_else (get err "status") (VNum 500);
       info_message := or_else (get err "message") (VStr "Internal Server Error");
       info_details := VUndefined |} in
  let error :=
    if VcFormats.is_string (get err "name") "ValidationError"
    then {| info_status := VNum 400;
            info_message := VStr "Validation Error";
            info_details := get err "details" |}
    else error in
  let error :=
    if VcFormats.is_string (get err "name") "JsonWebTokenError"
    then {| info_status := VNum 401;
            info_message := VStr "Invalid token";
            info_details := info_details error |}
    else error in
  if truthy (get err "response")
  then {| info_status := get (get err "response") "status";
          info_message :=
            or_else (get (get (get err "response") "data") "message")
              (VStr "External API error");
          info_details := info_details error |}
  else error.

(** The error is a truthy value (next(err) with a falsy err is no error);
    the console line is recorded with the error's message. *)
Definition errorHandler (err : value) : M Reply :=
  console_error "Error:" (toStr (get err "message")) ;;;
  let error := errorInfo err in
  let response :=
    VObj [ ("error", info_message error); ("status", info_status error) ] in
  let response :=
    if VcFormats.is_string (env_value NODE_ENV) "development"
    then set (set response "stack" (get err "stack")) "details" (info_details error)
    else response in
  ret {| reply_status := info_status error; reply_body := response |}.

(** [asyncHandler(fn)]: a handler that throws (an Error with the message)
    is answered by errorHandler. *)
Definition asyncHandler (fn : M VcRoutes.Response) : M Reply :=
  try_catch
    (res <- fn ;;
     ret {| reply_status := VNum (VcRoutes.res_status res);
            reply_body := VcRoutes.res_json res |})
    (fun message => errorHandler (VObj [("message", VStr message)])).

End Handler.

End ErrorHandler.

(** ** routes/service.js: the DID document *)

Module ServiceRoutes.

Section Service.

Variable E : Env.

(** [process.env.SERVICE_DOMAIN] *)
Variable SERVICE_DOMAIN : option string.

Definition did : string := toStr (env_value (SERVICE_DID_WEB E)).

(** The document of GET /service/did.json. *)
Definition didDocument : value :=
  VObj [ ("@context",
          VArr [ VStr "https://www.w3.org/ns/did/v1";
                 VStr "https://w3id.org/security/suites/jws-2020/v1" ]);
         ("id", env_value (SERVICE_DID_WEB E));
         ("verificationMethod",
          VArr [ VObj [ ("id", VStr (render [Subst did; Quasi "#key-1"]));
                        ("type", VStr "RsaVerificationKey2018");
                        ("controller", env_value (SERVICE_DID_WEB E));
                        ("publicKeyJwk",
                         VObj [ ("kty", VStr "RSA");
                                ("n", VStr "mock-public-key-modulus");
                                ("e", VStr "AQAB") ]) ] ]);
         ("assertionMethod", VArr [ VStr (render [Subst did; Quasi "#key-1"]) ]);
         ("service",
          VArr [ VObj [ ("id", VStr (render [Subst did; Quasi "#vc-service"]));
                        ("type", VStr "VerifiableCredentialService");
                        ("serviceEndpoint",
                         VStr (render [Quasi "https://";
                                       Subst (toStr (env_value SERVICE_DOMAIN));
                                       Quasi "/vc"])) ] ]) ].

End Service.

End ServiceRoutes.

(** ** Further readings and fixtures *)

(** What the type test accepts. *)
Definition names_type (t : value) (x : string) : bool :=
  match t with
  | VArr items => existsb (fun v => VcFormats.is_string v x) items
  | VStr s => mentions x s
  | _ => false
  end.

(** Values for concrete runs of the code above. *)
Module Fixtures.

(** The credential of the repository's validation test. *)
Definition validVc : value :=
  VObj [ ("@context", VArr [VStr "https://www.w3.org/2018/credentials/v1"]);
         ("id", VStr "urn:uuid:test");
         ("type", VArr [VStr "VerifiableCredential"]);
         ("issuer", VStr "did:web:test");
         ("issuanceDate", VStr "2025-01-15T10:00:00Z");
         ("credentialSubject",
          VObj [("id", VStr "https://user.example.org/profile/card#me")]) ].

(** The credential data of [Sample.quotedData], to be signed. *)
Definition signedQuotedData : VcService.VcData :=
  {| VcService.id := VcService.id Sample.quotedData;
     VcService.webid := VcService.webid Sample.quotedData;
     VcService.benefitData := VcService.benefitData Sample.quotedData;
     VcService.preview := VBool false |}.

(** A webid that closes its IRI reference and goes on with a proof
    statement. *)
Definition injectedWebid : string :=
  "https://user.example.org/profile/card#me> ; cred:proof [ cred:jws "
  ++ dq ++ "forged" ++ dq ++ " ] ; cred:holder <https://user.example.org/profile/card#me".

(** The preview of the unit test's award for that webid. *)
Definition injectedPreview : VcService.VcData :=
  {| VcService.id := VcService.id Sample.previewData;
     VcService.webid := VStr injectedWebid;
     VcService.benefitData := VcService.benefitData Sample.previewData;
     VcService.preview := VBool true |}.

(** A request for a preview by a token that carries that webid. *)
Definition injectedRequest : VcRoutes.Request :=
  {| VcRoutes.req_user :=
       Auth.user_of (VObj [ ("webid", VStr injectedWebid); ("sub", VStr "test-user") ]);
     VcRoutes.req_body := VObj [] |}.

(** The request of the repository's issuance test. *)
Definition issueRequest : VcRoutes.Request :=
  {| VcRoutes.req_user := Sample.user;
     VcRoutes.req_body := VObj [("confirm", VBool true)] |}.

End Fixtures.

(** * Properties *)

(** ** Strings and templates *)

Lemma append_nil_r (s : string) : s ++ "" = s.
Proof.
  induction s as [|c s IH]; simpl; [reflexivity | now rewrite IH].
Qed.

Lemma append_assoc (a b c : string) : (a ++ b) ++ c = a ++ (b ++ c).
Proof.
  induction a as [|x a IH]; simpl; [reflexivity | now rewrite IH].
Qed.

Lemma render_cons (p : part) (ps : list part) :
  render (p :: ps) = part_text p ++ render ps.
Proof.
  unfold render. destruct ps as [|q r]; simpl.
  - now rewrite append_nil_r.
  - reflexivity.
Qed.

Lemma render_app (ps qs : list part) :
  render (ps ++ qs) = render ps ++ render qs.
Proof.
  induction ps as [|p ps IH].
  - reflexivity.
  - rewrite <- app_comm_cons, !render_cons, IH. now rewrite append_assoc.
Qed.

Lemma prefix_cons (x y : ascii) (n s : string) :
  prefix (String x n) (String y s) = true -> x = y /\ prefix n s = true.
Proof.
  simpl. destruct (ascii_dec x y) as [->|]; [auto | discriminate].
Qed.

Lemma prefix_app_l (n a b : string) :
  prefix n a = true -> prefix n (a ++ b) = true.
Proof.
  revert a. induction n as [|x n IH]; intros a H.
  - now destruct (a ++ b).
  - destruct a as [|y a]; [discriminate|].
    apply prefix_cons in H as [-> H]. simpl.
    destruct (ascii_dec y y); [now apply IH | congruence].
Qed.

Lemma mentions_app_l (n a b : string) :
  n <> "" -> mentions n a = true -> mentions n (a ++ b) = true.
Proof.
  intros Hn. induction a as [|x a IH]; cbn [append mentions]; intros H.
  - destruct n; [congruence | discriminate].
  - apply orb_true_iff in H as [H|H].
    + pose proof (prefix_app_l n (String x a) b H) as H'.
      cbn [append] in H'. now rewrite H'.
    + rewrite (IH H). apply orb_true_r.
Qed.

Lemma mentions_app_r (n a b : string) :
  mentions n b = true -> mentions n (a ++ b) = true.
Proof.
  intros H. induction a as [|x a IH]; cbn [append mentions].
  - exact H.
  - rewrite IH. apply orb_true_r.
Qed.

(** A needle in one part is a needle in the text. *)
Lemma mentions_part (n : string) (before after : list part) (p : part) :
  n <> "" -> mentions n (part_text p) = true ->
  mentions n (render (before ++ p :: after)) = true.
Proof.
  intros Hn H. rewrite render_app, render_cons.
  apply mentions_app_r. now apply mentions_app_l.
Qed.

(** A character that the needle does not contain stops every match. *)
Lemma prefix_app_stop (n a b : string) (c : ascii) :
  occurs c n = false ->
  prefix n (a ++ String c b) = true -> prefix n a = true.
Proof.
  revert a. induction n as [|x n IH]; intros a Hc H.
  - now destruct a.
  - simpl in Hc. apply orb_false_iff in Hc as [Hx Hc].
    destruct a as [|y a].
    + apply prefix_cons in H as [-> _]. now rewrite Ascii.eqb_refl in Hx.
    + apply prefix_cons in H as [-> H]. simpl.
      destruct (ascii_dec y y); [now apply IH | congruence].
Qed.

Lemma mentions_stop_head (n b : string) (c : ascii) :
  n <> "" -> occurs c n = false ->
  mentions n (String c b) = mentions n b.
Proof.
  intros Hn Hc. destruct n as [|x n]; [congruence|].
  change (mentions (String x n) (String c b))
    with (prefix (String x n) (String c b) || mentions (String x n) b).
  destruct (prefix (String x n) (String c b)) eqn:Hp; [|reflexivity].
  apply prefix_cons in Hp as [-> _]. simpl in Hc.
  now rewrite Ascii.eqb_refl in Hc.
Qed.

Lemma mentions_app_stop (n a b : string) (c : ascii) :
  n <> "" -> occurs c n = false ->
  mentions n (a ++ String c b) = true ->
  mentions n a = true \/ mentions n b = true.
Proof.
  intros Hn Hc. induction a as [|x a IH]; intros H.
  - right. change ("" ++ String c b) with (String c b) in H.
    now rewrite mentions_stop_head in H.
  - cbn [append mentions] in H. cbn [mentions].
    apply orb_true_iff in H as [H|H].
    + left. now rewrite (prefix_app_stop n (String x a) b c Hc H).
    + destruct (IH H) as [H'|H']; [left | now right].
      rewrite H'. apply orb_true_r.
Qed.

Lemma last_char_split (a : string) (c : ascii) :
  last_char a = Some c -> exists a', a = a' ++ String c "".
Proof.
  induction a as [|x a IH]; [discriminate|].
  destruct a as [|y a].
  - simpl. intros [= ->]. now exists "".
  - intros H. destruct (IH H) as [a' Ha']. exists (String x a').
    simpl. now rewrite <- Ha'.
Qed.

(** A match cannot straddle the seam of [a ++ b] when a character that the
    needle lacks stands directly at the seam. *)
Lemma mentions_seam (n a b : string) :
  n <> "" ->
  stops n (last_char a) || stops n (first_char b) = true ->
  mentions n (a ++ b) = true ->
  mentions n a = true \/ mentions n b = true.
Proof.
  intros Hn Hs H. apply orb_true_iff in Hs as [Hs|Hs].
  - destruct (last_char a) as [c|] eqn:Hl; [|discriminate].
    apply negb_true_iff in Hs.
    destruct (last_char_split _ _ Hl) as [a' ->].
    rewrite append_assoc in H. simpl in H.
    destruct (mentions_app_stop _ _ _ _ Hn Hs H) as [H'|H']; [left | now right].
    now apply mentions_app_l.
  - destruct b as [|c b]; [discriminate|]. simpl in Hs.
    apply negb_true_iff in Hs.
    destruct (mentions_app_stop _ _ _ _ Hn Hs H) as [H'|H']; [now left | right].
    now rewrite mentions_stop_head.
Qed.

Lemma render_first_char (n : string) (q : part) (r : list part) :
  seam_right n q = true ->
  stops n (first_char (render (q :: r))) = true.
Proof.
  unfold seam_right. intros H. apply andb_true_iff in H as [_ H].
  rewrite render_cons. destruct (part_text q); [discriminate | exact H].
Qed.

(** In a guarded template a needle found in the text lies within one part. *)
Lemma mentions_render (n : string) (ps : list part) :
  n <> "" -> guarded n ps = true ->
  mentions n (render ps) = true ->
  existsb (fun p => mentions n (part_text p)) ps = true.
Proof.
  intros Hn. induction ps as [|p r IH]; intros Hg H.
  - destruct n; [congruence | discriminate].
  - rewrite render_cons in H. destruct r as [|q r'].
    + change (render []) with "" in H. rewrite append_nil_r in H.
      simpl. now rewrite H.
    + cbn [guarded] in Hg. apply andb_true_iff in Hg as [Hs Hg].
      assert (Hseam : stops n (last_char (part_text p))
                      || stops n (first_char (render (q :: r'))) = true).
      { apply orb_true_iff in Hs as [Hs|Hs].
        - unfold seam_left in Hs. apply andb_true_iff in Hs as [_ ->].
          reflexivity.
        - rewrite (render_first_char _ _ _ Hs). apply orb_true_r. }
      destruct (mentions_seam _ _ _ Hn Hseam H) as [H'|H'].
      * cbn [existsb]. now rewrite H'.
      * cbn [existsb]. apply orb_true_iff. right. exact (IH Hg H').
Qed.

Lemma free_parts (n : string) (ps : list part) :
  quasis_free n ps = true -> substs_free n ps = true ->
  existsb (fun p => mentions n (part_text p)) ps = false.
Proof.
  unfold quasis_free, substs_free.
  induction ps as [|p r IH]; [reflexivity|]. cbn [forallb existsb].
  intros Hq Hs. apply andb_true_iff in Hq as [Hq Hq'].
  apply andb_true_iff in Hs as [Hs Hs']. rewrite (IH Hq' Hs').
  destruct p; simpl in *; destruct (mentions n _); auto; discriminate.
Qed.

(** The text of a guarded template mentions the needle only if a quasi or a
    substituted value does. *)
Lemma render_free (n : string) (ps : list part) :
  n <> "" -> guarded n ps = true ->
  quasis_free n ps = true -> substs_free n ps = true ->
  mentions n (render ps) = false.
Proof.
  intros Hn Hg Hq Hs. destruct (mentions n (render ps)) eqn:H; [|reflexivity].
  apply (mentions_render _ _ Hn Hg) in H.
  now rewrite (free_parts _ _ Hq Hs) in H.
Qed.

(** ** Running computations *)

Lemma bind_inr {A B : Type} (c : M A) (k : A -> M B) (w w' : World) (a : A) :
  c w = (inr a, w') -> bind c k w = k a w'.
Proof.
  unfold bind. now intros ->.
Qed.

Lemma bind_inl {A B : Type} (c : M A) (k : A -> M B) (w w' : World) (e : string) :
  c w = (inl e, w') -> bind c k w = (inl e, w').
Proof.
  unfold bind. now intros ->.
Qed.

Lemma try_catch_inr {A : Type} (c : M A) (h : string -> M A) (w w' : World) (a : A) :
  c w = (inr a, w') -> try_catch c h w = (inr a, w').
Proof.
  unfold try_catch. now intros ->.
Qed.

Lemma try_catch_inl {A : Type} (c : M A) (h : string -> M A) (w w' : World) (e : string) :
  c w = (inl e, w') -> try_catch c h w = h e w'.
Proof.
  unfold try_catch. now intros ->.
Qed.

(** ** The encoders *)

Section EncoderFacts.

Import VcService.

Lemma preview_flag_truthy (d : VcData) :
  truthy (preview d) = true -> truthy (preview_flag d) = true.
Proof.
  unfold preview_flag. now destruct (preview d).
Qed.

(** The JSON-LD document of a preview: the literal of generateJsonLdVc with
    the two optional claims, and no further key. *)
Lemma generateJsonLdVc_preview (E : Env) (d : VcData) (w : World) :
  truthy (preview d) = true ->
  exists vc w',
    generateJsonLdVc E d w = (inr vc, w') /\
    has_key vc "proof" = false /\
    get vc "id" = id d /\
    get vc "issuer" = issuer E /\
    get vc "issuanceDate" = VStr (toISOString E (clock w)) /\
    get (get vc "credentialSubject") "id" = webid d.
Proof.
  intros Hp. apply preview_flag_truthy in Hp.
  unfold generateJsonLdVc, bind, Date_now, ret. rewrite Hp. cbn [negb].
  destruct (truthy (components (benefitData d)));
    destruct (truthy (totalWeeklyAmount (benefitData d)));
    eexists; eexists; (split; [reflexivity|]); repeat split; reflexivity.
Qed.

Lemma generateTurtleVc_preview (E : Env) (d : VcData) (w : World) :
  truthy (preview d) = true ->
  exists w',
    generateTurtleVc E d w =
    (inr (render (turtleParts E d (toISOString E (clock w))
                    (toISOString E (S (clock w))) [])), w').
Proof.
  intros Hp. apply preview_flag_truthy in Hp.
  unfold generateTurtleVc, bind, Date_now, ret. rewrite Hp. cbn [negb].
  eexists. reflexivity.
Qed.

Lemma turtleParts_guarded (E : Env) (d : VcData) (t1 t2 : string) :
  guarded "cred:proof" (turtleParts E d t1 t2 []) = true.
Proof.
  unfold turtleParts, totalParts.
  destruct (truthy (totalWeeklyAmount (benefitData d))); reflexivity.
Qed.

Lemma turtleParts_quasis_free (E : Env) (d : VcData) (t1 t2 : string) :
  quasis_free "cred:proof" (turtleParts E d t1 t2 []) = true.
Proof.
  unfold turtleParts, totalParts.
  destruct (truthy (totalWeeklyAmount (benefitData d))); reflexivity.
Qed.

(** The other side of the preview flag: a credential that is not a preview
    gets its proof in both encodings, whenever the JSON-LD encoder returns. *)
Lemma signed_encodings_carry_proof (E : Env) (d : VcData) (w : World) :
  truthy (preview_flag d) = false ->
  (forall vc w', generateJsonLdVc E d w = (inr vc, w') -> has_key vc "proof" = true) /\
  (exists text w',
     generateTurtleVc E d w = (inr text, w') /\ mentions "cred:proof" text = true).
Proof.
  intros Hp. split.
  - intros vc w'. unfold generateJsonLdVc, generateProof, generateMockSignature,
      bind, Date_now, ret, throw.
    rewrite Hp. cbn [negb].
    destruct (truthy (components (benefitData d)));
      destruct (truthy (totalWeeklyAmount (benefitData d)));
      cbn [clock]; destruct (JSON_stringify E _ 0);
      intros [= <- _]; reflexivity.
  - unfold generateTurtleVc, bind, Date_now, random_next, ret.
    rewrite Hp. cbn [negb]. eexists. eexists. split; [reflexivity|].
    unfold turtleParts, proofParts.
    rewrite app_assoc.
    match goal with
    | |- mentions _ (render (?before ++ (?p :: ?r) ++ ?last)) = true =>
        change (before ++ (p :: r) ++ last)%list
          with (before ++ p :: (r ++ last))%list;
        apply (mentions_part _ before (r ++ last)%list p)
    end.
    + discriminate.
    + reflexivity.
Qed.

End EncoderFacts.

(** What the encoders themselves put into a preview: the JSON-LD document
    has no proof key at all, and the Turtle text is the template without its
    proof block, whose own text never mentions cred:proof. The text as a
    whole mentions cred:proof only where a substituted value (an id, a
    webid, a date, a claim value) itself contains it. *)
Theorem preview_encodings_carry_no_proof
  (E : Env) (d : VcService.VcData) (w : World) :
  truthy (VcService.preview d) = true ->
  let ps := VcService.turtleParts E d (toISOString E (clock w))
              (toISOString E (S (clock w))) [] in
  (exists vc w',
     VcService.generateJsonLdVc E d w = (inr vc, w') /\
     has_key vc "proof" = false) /\
  (exists w', VcService.generateTurtleVc E d w = (inr (render ps), w')) /\
  quasis_free "cred:proof" ps = true /\
  (substs_free "cred:proof" ps = true ->
   mentions "cred:proof" (render ps) = false).
Proof.
  intros Hp ps. repeat split.
  - destruct (generateJsonLdVc_preview E d w Hp) as (vc & w' & Hrun & Hkey & _).
    now exists vc, w'.
  - apply (generateTurtleVc_preview E d w Hp).
  - apply turtleParts_quasis_free.
  - intros Hs. apply render_free.
    + discriminate.
    + apply turtleParts_guarded.
    + apply turtleParts_quasis_free.
    + exact Hs.
Qed.

Lemma preview_encodings_carry_no_proof_witness :
  truthy (VcService.preview Sample.previewData) = true /\
  let ps := VcService.turtleParts Sample.env Sample.previewData
              (toISOString Sample.env 0) (toISOString Sample.env 1) [] in
  (exists vc w',
     VcService.generateJsonLdVc Sample.env Sample.previewData world0 = (inr vc, w') /\
     has_key vc "proof" = false) /\
  (exists w',
     VcService.generateTurtleVc Sample.env Sample.previewData world0
     = (inr (render ps), w')) /\
  quasis_free "cred:proof" ps = true /\
  (substs_free "cred:proof" ps = true ->
   mentions "cred:proof" (render ps) = false).
Proof.
  split.
  - reflexivity.
  - apply (preview_encodings_carry_no_proof Sample.env Sample.previewData world0).
    reflexivity.
Defined.

(** C3, on the code. For a preview the JSON-LD encoder never writes a
    proof key and the Turtle encoder leaves out its proof block, but it
    writes the webid into the text as it is. A webid that closes its IRI
    reference and goes on with a cred:proof statement therefore gives a
    preview whose Turtle text states a proof, although no random bytes were
    read and the JSON-LD document of the same preview has no proof key.
    GET /vc/preview, which takes the webid from the requester's token,
    answers with that text. *)
Theorem preview_turtle_states_an_injected_proof :
  (forall E d w,
     truthy (VcService.preview d) = true ->
     exists vc w',
       VcService.generateJsonLdVc E d w = (inr vc, w') /\
       has_key vc "proof" = false) /\
  truthy (VcService.preview Fixtures.injectedPreview) = true /\
  (exists text w',
     VcService.generateTurtleVc Sample.env Fixtures.injectedPreview world0
     = (inr text, w') /\
     randoms w' = 0 /\
     mentions
       ("cred:credentialSubject <https://user.example.org/profile/card#me> ; "
        ++ "cred:proof [ cred:jws " ++ dq ++ "forged" ++ dq ++ " ] ;") text
     = true) /\
  (exists text w',
     VcViews.get_preview Sample.env Fixtures.injectedRequest (VStr "text/turtle") world0
     = (inr {| VcViews.reply_status := 200;
               VcViews.reply_content_type := Some "text/turtle";
               VcViews.reply_body := VStr text |}, w') /\
     mentions ("cred:proof [ cred:jws " ++ dq ++ "forged" ++ dq ++ " ]") text = true).
Proof.
  split; [|split; [reflexivity | split]].
  - intros E d w Hp.
    destruct (generateJsonLdVc_preview E d w Hp) as (vc & w' & Hrun & Hkey & _).
    now exists vc, w'.
  - eexists. eexists. split; [vm_compute; reflexivity|].
    split; vm_compute; reflexivity.
  - eexists. eexists. split; [vm_compute; reflexivity|].
    vm_compute; reflexivity.
Qed.

(** C4, as the code has it. The encoders read the clock: the output for an
    unsigned (preview) credential is a function of the credential's fields,
    the configured issuer id and the clock readings taken while encoding
    (one for the JSON-LD document, two for the Turtle text). Two encodings
    agree byte for byte whenever those readings agree, whatever else differs
    (the random source, the uuid generator, the pod, the console). *)
Theorem preview_encodings_depend_on_fields_and_clock
  (E1 E2 : Env) (d : VcService.VcData) (w1 w2 : World) :
  truthy (VcService.preview d) = true ->
  SERVICE_DID_WEB E1 = SERVICE_DID_WEB E2 ->
  toISOString E1 (clock w1) = toISOString E2 (clock w2) ->
  toISOString E1 (S (clock w1)) = toISOString E2 (S (clock w2)) ->
  fst (VcService.generateJsonLdVc E1 d w1) = fst (VcService.generateJsonLdVc E2 d w2) /\
  fst (VcService.generateTurtleVc E1 d w1) = fst (VcService.generateTurtleVc E2 d w2).
Proof.
  intros Hp Hdid Ht1 Ht2. apply preview_flag_truthy in Hp. split.
  - unfold VcService.generateJsonLdVc, bind, Date_now, ret.
    rewrite Hp. cbn [negb fst]. unfold VcService.issuer.
    rewrite Hdid, Ht1.
    destruct (truthy (VcService.components (VcService.benefitData d)));
      destruct (truthy (VcService.totalWeeklyAmount (VcService.benefitData d)));
      reflexivity.
  - unfold VcService.generateTurtleVc, bind, Date_now, ret.
    rewrite Hp. cbn [negb fst clock]. unfold VcService.turtleParts, VcService.issuer.
    now rewrite Hdid, Ht1, Ht2.
Qed.

Lemma preview_encodings_depend_on_fields_and_clock_witness :
  let later :=
    {| clock := 0; uuids := 3; randoms := 5; pod := [];
       errors := [("Index update error:", "HTTP PUT failed: timeout")] |} in
  fst (VcService.generateJsonLdVc Sample.env Sample.previewData world0)
  = fst (VcService.generateJsonLdVc Sample.env_index_down Sample.previewData later) /\
  fst (VcService.generateTurtleVc Sample.env Sample.previewData world0)
  = fst (VcService.generateTurtleVc Sample.env_index_down Sample.previewData later).
Proof.
  apply (preview_encodings_depend_on_fields_and_clock
           Sample.env Sample.env_index_down Sample.previewData world0);
    reflexivity.
Defined.

(** C4 as stated fails: encoding the same unsigned credential a second time,
    in the world the first encoding left, gives another document and another
    text, because the clock has been read in between. *)
Lemma preview_encoding_twice_differs :
  let first_doc := VcService.generateJsonLdVc Sample.env Sample.previewData world0 in
  let second_doc := VcService.generateJsonLdVc Sample.env Sample.previewData (snd first_doc) in
  let first_ttl := VcService.generateTurtleVc Sample.env Sample.previewData world0 in
  let second_ttl := VcService.generateTurtleVc Sample.env Sample.previewData (snd first_ttl) in
  (get_result first_doc "issuanceDate" = Some (VStr "2025-01-15T10:30:00.000Z") /\
   get_result second_doc "issuanceDate" = Some (VStr "2025-01-15T10:30:01.000Z")) /\
  fst first_doc <> fst second_doc /\
  fst first_ttl <> fst second_ttl.
Proof.
  repeat split.
  - intros H. vm_compute in H. discriminate H.
  - intros H. vm_compute in H. discriminate H.
Qed.

(** ** The pod *)

Section PodFacts.

Import PodService.

Variable E : Env.

Lemma read_prop_cases (o : value) (k : string) (w : World) :
  (exists e, read_prop o k w = (inl e, w)) \/ read_prop o k w = (inr (get o k), w).
Proof.
  destruct o; try (right; reflexivity); left; eexists; reflexivity.
Qed.

(** A PUT either is acknowledged, and then the pod holds one more resource,
    or throws, and then nothing has changed. *)
Lemma putResource_cases (url : string) (content : value) (contentType : string)
  (user : value) (w : World) :
  (exists r w',
     putResource E url content contentType user w = (inr r, w') /\
     pod w' = (pod w ++ [{| pw_url := url; pw_content := toStr content;
                           pw_type := contentType |}])%list /\
     errors w' = errors w /\ clock w' = clock w) \/
  (exists e, putResource E url content contentType user w = (inl e, w)).
Proof.
  unfold putResource.
  destruct (read_prop_cases content "length" w) as [[e He]|He].
  { right. eexists. erewrite try_catch_inl by (erewrite bind_inl; eauto).
    reflexivity. }
  destruct (read_prop_cases user "webid" w) as [[e Hu]|Hu].
  { right. eexists.
    erewrite try_catch_inl
      by (erewrite bind_inr by eassumption; erewrite bind_inl; eauto).
    reflexivity. }
  unfold http_PUT. destruct (httpPut E url) as [msg|] eqn:Hput.
  - right. eexists.
    erewrite try_catch_inl
      by (erewrite bind_inr by eassumption; erewrite bind_inr by eassumption;
          erewrite bind_inl; reflexivity).
    reflexivity.
  - left. eexists. eexists. split.
    + erewrite try_catch_inr
        by (erewrite bind_inr by eassumption; erewrite bind_inr by eassumption;
            erewrite bind_inr; reflexivity).
      reflexivity.
    + repeat split.
Qed.

Lemma putResource_inr (url : string) (content : value) (contentType : string)
  (user : value) (w w' : World) (r : PutResponse) :
  putResource E url content contentType user w = (inr r, w') ->
  pod w' = (pod w ++ [{| pw_url := url; pw_content := toStr content;
                        pw_type := contentType |}])%list /\
  errors w' = errors w /\ clock w' = clock w.
Proof.
  intros H.
  destruct (putResource_cases url content contentType user w)
    as [(r0 & w0 & H0 & Hpod)|[e He]].
  - rewrite H0 in H. now injection H as <- <-.
  - rewrite He in H. discriminate.
Qed.

Lemma putResource_inl (url : string) (content : value) (contentType : string)
  (user : value) (w w' : World) (e : string) :
  putResource E url content contentType user w = (inl e, w') -> w' = w.
Proof.
  intros H.
  destruct (putResource_cases url content contentType user w)
    as [(r0 & w0 & H0 & _)|[e0 He]].
  - rewrite H0 in H. discriminate.
  - rewrite He in H. now injection H as _ <-.
Qed.

Lemma console_error_logged (label e : string) (w w0 : World) :
  pod w0 = pod w -> errors w0 = errors w ->
  exists w',
    console_error label e w0 = (inr tt, w') /\ step_outcome label w w'.
Proof.
  intros Hp He. eexists. split; [reflexivity|].
  apply (step_logged _ _ _ e); simpl; congruence.
Qed.

Lemma updateCredentialsIndex_cases (podUrl : value) (vcId : string) (user : value)
  (w : World) :
  exists w',
    updateCredentialsIndex E podUrl vcId user w = (inr tt, w') /\
    step_outcome "Index update error:" w w'.
Proof.
  unfold updateCredentialsIndex, new_URL.
  destruct (URL_resolve E "credentials/index.ttl" (toStr podUrl)) as [indexUrl|].
  2:{ erewrite try_catch_inl by reflexivity.
      now apply console_error_logged. }
  destruct (URL_resolve E "credentials/" (toStr podUrl)) as [container|].
  2:{ erewrite try_catch_inl by reflexivity.
      now apply console_error_logged. }
  set (w2 := {| clock := S (S (clock w)); uuids := uuids w; randoms := randoms w;
                pod := pod w; errors := errors w |}).
  set (entry := VStr (render (indexParts container vcId (toISOString E (clock w))
                                (toISOString E (S (clock w)))))).
  destruct (putResource_cases indexUrl entry "text/turtle" user w2)
    as [(r & w3 & Hput & Hpod & Herr & _)|[e Hput]].
  - exists w3. split.
    + erewrite try_catch_inr; [reflexivity|].
      unfold bind, ret, Date_now. cbn [clock uuids randoms pod errors].
      fold w2. fold entry. now rewrite Hput.
    + eapply step_written; [exact Hpod | exact Herr].
  - erewrite try_catch_inl.
    2:{ unfold bind, ret, Date_now. cbn [clock uuids randoms pod errors].
        fold w2. fold entry. now rewrite Hput. }
    now apply console_error_logged.
Qed.

Lemma setCredentialPermissions_cases (podUrl : value) (vcId : string) (user : value)
  (w : World) :
  exists w',
    setCredentialPermissions E podUrl vcId user w = (inr tt, w') /\
    (step_outcome "Permission setting error:" w w') /\
    ((pod w' = pod w) \/
     (exists aclUrl,
        URL_resolve E ("credentials/" ++ vcId ++ ".jsonld.acl") (toStr podUrl)
        = Some aclUrl /\
        pod w' = (pod w ++ [{| pw_url := aclUrl;
                              pw_content := render (aclParts (toStr (get user "webid")) vcId);
                              pw_type := "text/turtle" |}])%list)).
Proof.
  unfold setCredentialPermissions, new_URL.
  change (render [Quasi "credentials/"; Subst vcId; Quasi ".jsonld.acl"])
    with ("credentials/" ++ vcId ++ ".jsonld.acl").
  destruct (URL_resolve E _ (toStr podUrl)) as [aclUrl|] eqn:Hurl.
  2:{ erewrite try_catch_inl by reflexivity.
      destruct (console_error_logged "Permission setting error:" "Invalid URL" w w)
        as (w' & Hrun & Hout); [reflexivity | reflexivity |].
      exists w'. repeat split; [exact Hrun | exact Hout |].
      left. injection Hrun as <-. reflexivity. }
  destruct (read_prop_cases user "webid" w) as [[e Hu]|Hu].
  { erewrite try_catch_inl
      by (erewrite bind_inr by reflexivity; erewrite bind_inl; eauto).
    destruct (console_error_logged "Permission setting error:" e w w)
      as (w' & Hrun & Hout); [reflexivity | reflexivity |].
    exists w'. repeat split; [exact Hrun | exact Hout |].
    left. injection Hrun as <-. reflexivity. }
  set (acl := VStr (render (aclParts (toStr (get user "webid")) vcId))).
  destruct (putResource_cases aclUrl acl "text/turtle" user w)
    as [(r & w1 & Hput & Hpod & Herr & _)|[e Hput]].
  - exists w1. repeat split.
    + erewrite try_catch_inr; [reflexivity|].
      erewrite bind_inr by reflexivity. erewrite bind_inr by eassumption.
      fold acl. erewrite bind_inr by eassumption. reflexivity.
    + eapply step_written; [exact Hpod | exact Herr].
    + right. exists aclUrl. split; [reflexivity | exact Hpod].
  - erewrite try_catch_inl.
    2:{ erewrite bind_inr by reflexivity. erewrite bind_inr by eassumption.
        fold acl. erewrite bind_inl by eassumption. reflexivity. }
    destruct (console_error_logged "Permission setting error:" e w w)
      as (w' & Hrun & Hout); [reflexivity | reflexivity |].
    exists w'. repeat split; [exact Hrun | exact Hout |].
    left. injection Hrun as <-. reflexivity.
Qed.

Lemma read_prop_ok (o : value) (k : string) (w : World) :
  nullish o = false -> read_prop o k w = (inr (get o k), w).
Proof.
  destruct o; try discriminate; reflexivity.
Qed.

(** The acknowledged PUT, spelled out. *)
Lemma putResource_ok (url : string) (content : value) (contentType : string)
  (user : value) (w : World) :
  nullish content = false -> nullish user = false -> httpPut E url = None ->
  exists r w',
    putResource E url content contentType user w = (inr r, w') /\
    pod w' = (pod w ++ [{| pw_url := url; pw_content := toStr content;
                          pw_type := contentType |}])%list.
Proof.
  intros Hc Hu Hput. unfold putResource, http_PUT. rewrite Hput.
  eexists. eexists. split.
  - erewrite try_catch_inr; [reflexivity|].
    erewrite bind_inr by (now apply read_prop_ok).
    erewrite bind_inr by (now apply read_prop_ok).
    erewrite bind_inr by reflexivity. reflexivity.
  - reflexivity.
Qed.

Lemma setCredentialPermissions_ok (podUrl : value) (vcId : string) (user : value)
  (w : World) (aclUrl : string) :
  URL_resolve E ("credentials/" ++ vcId ++ ".jsonld.acl") (toStr podUrl) = Some aclUrl ->
  nullish user = false -> httpPut E aclUrl = None ->
  exists w',
    setCredentialPermissions E podUrl vcId user w = (inr tt, w') /\
    pod w' = (pod w ++ [{| pw_url := aclUrl;
                          pw_content := render (aclParts (toStr (get user "webid")) vcId);
                          pw_type := "text/turtle" |}])%list.
Proof.
  intros Hurl Hu Hput.
  destruct (putResource_ok aclUrl
              (VStr (render (aclParts (toStr (get user "webid")) vcId)))
              "text/turtle" user w eq_refl Hu Hput) as (r & w' & Hrun & Hpod).
  exists w'. split; [|exact Hpod].
  unfold setCredentialPermissions, new_URL.
  change (render [Quasi "credentials/"; Subst vcId; Quasi ".jsonld.acl"])
    with ("credentials/" ++ vcId ++ ".jsonld.acl").
  rewrite Hurl.
  erewrite try_catch_inr; [reflexivity|].
  erewrite bind_inr by reflexivity.
  erewrite bind_inr by (now apply read_prop_ok).
  erewrite bind_inr by exact Hrun. reflexivity.
Qed.

End PodFacts.

(** C2, as the code has it. When the JSON-LD write is acknowledged and the
    Turtle write throws, storeCredential throws: the caller gets the Error
    `Failed to store credential: ...` with the message of the failed write,
    no result object and no outcome that names the missing format. The
    JSON-LD resource stays in the pod, nothing is written after it, and the
    error is logged once. *)
Theorem storeCredential_second_write_fails
  (E : Env) (podUrl : value) (vcId : string) (vcData : PodService.StoredVc)
  (user : value) (w w1 w2 : World) (fullUrl : string)
  (r1 : PodService.PutResponse) (e : string) :
  URL_resolve E ("credentials/" ++ vcId) (toStr podUrl) = Some fullUrl ->
  PodService.putResource E (fullUrl ++ ".jsonld")
    (PodService.stringify2 E (PodService.jsonLd vcData)) "application/ld+json" user w
  = (inr r1, w1) ->
  PodService.putResource E (fullUrl ++ ".ttl")
    (PodService.turtle vcData) "text/turtle" user w1
  = (inl e, w2) ->
  exists w',
    PodService.storeCredential E podUrl vcId vcData user w
    = (inl ("Failed to store credential: " ++ e), w') /\
    pod w' = (pod w ++ [{| pw_url := fullUrl ++ ".jsonld";
                          pw_content := toStr (PodService.stringify2 E (PodService.jsonLd vcData));
                          pw_type := "application/ld+json" |}])%list /\
    errors w' = (errors w ++ [("Pod storage error:", e)])%list.
Proof.
  intros Hurl H1 H2.
  pose proof (putResource_inl _ _ _ _ _ _ _ _ H2) as ->.
  destruct (putResource_inr _ _ _ _ _ _ _ _ H1) as (Hpod & Herr & _).
  eexists. split.
  - unfold PodService.storeCredential, new_URL.
    change (render [Quasi "credentials/"; Subst vcId]) with ("credentials/" ++ vcId).
    rewrite Hurl.
    erewrite try_catch_inl.
    2:{ erewrite bind_inr by reflexivity.
        erewrite bind_inr by exact H1.
        erewrite bind_inl by exact H2. reflexivity. }
    reflexivity.
  - cbn [pod errors]. now rewrite Hpod, Herr.
Qed.

Lemma storeCredential_second_write_fails_witness :
  exists w',
    PodService.storeCredential Sample.env (VStr "https://pod.example.org/")
      "urn:uuid:test-vc" Sample.storeWithoutTurtle Sample.user world0
    = (inl ("Failed to store credential: " ++
            "HTTP PUT failed: Cannot read properties of undefined (reading 'length')"),
       w') /\
    pod w' = ([] ++ [{| pw_url := "https://pod.example.org/credentials/urn:uuid:test-vc" ++ ".jsonld";
                       pw_content :=
                         toStr (PodService.stringify2 Sample.env
                                  (PodService.jsonLd Sample.storeWithoutTurtle));
                       pw_type := "application/ld+json" |}])%list /\
    errors w' =
    ([] ++ [("Pod storage error:",
             "HTTP PUT failed: Cannot read properties of undefined (reading 'length')")])%list.
Proof.
  eapply (storeCredential_second_write_fails Sample.env
            (VStr "https://pod.example.org/") "urn:uuid:test-vc" Sample.storeWithoutTurtle
            Sample.user world0); reflexivity.
Defined.

(** C2 as stated fails: with the repository's own mock pod, a store whose
    Turtle write throws ends in a thrown Error, not in a result that reports
    a partial write and names the Turtle format; the call has no result at
    all although the JSON-LD resource was written. *)
Lemma storeCredential_partial_write_throws :
  let run :=
    PodService.storeCredential Sample.env (VStr "https://pod.example.org/")
      "urn:uuid:test-vc" Sample.storeWithoutTurtle Sample.user world0 in
  fst run
  = inl "Failed to store credential: HTTP PUT failed: Cannot read properties of undefined (reading 'length')" /\
  get_result run "success" = None /\
  map pw_url (pod (snd run))
  = ["https://pod.example.org/credentials/urn:uuid:test-vc.jsonld"].
Proof.
  repeat split.
Qed.

(** C7, on the code. The access-control document written at an issuance
    names, as the resources it grants access to, the credential's id with
    the extensions .jsonld and .ttl. The id that POST /vc/issue makes is a
    urn:uuid IRI, so these references have a scheme and denote themselves,
    whatever the address of the document: no IRI reference in the document
    resolves to either of the two addresses the artifacts were stored at.
    The pod receives one access-control resource, next to the JSON-LD
    artifact, and none next to the Turtle artifact. *)
Theorem access_grants_name_the_id_not_the_stored_artifacts :
  let run := VcRoutes.post_issue Sample.env Fixtures.issueRequest world0 in
  let id := "urn:uuid:3f2b8c1e-5d4a-4e6f-9a7b-000000000000" in
  let jsonld := "https://user.example.org/storage/credentials/" ++ id ++ ".jsonld" in
  let turtle := "https://user.example.org/storage/credentials/" ++ id ++ ".ttl" in
  (forall uuid ext base,
     Iri.target base ("urn:uuid:" ++ uuid ++ ext) = Some ("urn:uuid:" ++ uuid ++ ext)) /\
  status_of run = Some 201%Z /\
  map pw_url (pod (snd run))
  = [ jsonld; turtle; "https://user.example.org/storage/credentials/index.ttl";
      jsonld ++ ".acl" ] /\
  (exists acl,
     content_at (jsonld ++ ".acl") (pod (snd run)) = Some acl /\
     acl = render (PodService.aclParts "https://user.example.org/profile/card#me" id) /\
     Iri.refs acl
     = [ "http://www.w3.org/ns/auth/acl#"; "#";
         "https://user.example.org/profile/card#me";
         id ++ ".jsonld"; id ++ ".ttl";
         "https://eon.co.uk/did.json";
         id ++ ".jsonld"; id ++ ".ttl";
         id ++ ".jsonld"; id ++ ".ttl" ] /\
     forallb (fun ref =>
                match Iri.target (jsonld ++ ".acl") ref with
                | Some t => negb (t =? jsonld) && negb (t =? turtle)
                | None => false
                end) (Iri.refs acl) = true) /\
  content_at (turtle ++ ".acl") (pod (snd run)) = None.
Proof.
  cbv zeta. split; [|split; [|split; [|split]]].
  - intros uuid ext base. reflexivity.
  - vm_compute; reflexivity.
  - vm_compute; reflexivity.
  - eexists. split; [vm_compute; reflexivity|].
    split; [vm_compute; reflexivity|].
    split; vm_compute; reflexivity.
  - vm_compute; reflexivity.
Qed.

(** ** The routes *)

(** C10, as the code has it. A request whose confirm is absent or falsy
    (undefined, null, false, 0, the empty string) is answered 400
    `Confirmation required` before anything else happens: the world is
    untouched, so no id was allocated, the clock was not read and nothing
    was written to the pod or the console. *)
Theorem issue_without_confirmation_is_rejected
  (E : Env) (req : VcRoutes.Request) (w : World) :
  truthy (get (VcRoutes.req_body req) "confirm") = false ->
  VcRoutes.post_issue E req w
  = (inr {| VcRoutes.res_status := 400;
            VcRoutes.res_json :=
              VObj [ ("error", VStr "Confirmation required");
                     ("message",
                      VStr "Must confirm VC issuance by setting confirm: true") ] |},
     w).
Proof.
  intros H. unfold VcRoutes.post_issue. rewrite H. reflexivity.
Qed.

Lemma issue_without_confirmation_is_rejected_witness :
  VcRoutes.post_issue Sample.env
    {| VcRoutes.req_user := Sample.user;
       VcRoutes.req_body := VObj [("podUrl", VStr "https://pod.example.org/")] |}
    world0
  = (inr {| VcRoutes.res_status := 400;
            VcRoutes.res_json :=
              VObj [ ("error", VStr "Confirmation required");
                     ("message",
                      VStr "Must confirm VC issuance by setting confirm: true") ] |},
     world0).
Proof.
  apply (issue_without_confirmation_is_rejected Sample.env). reflexivity.
Defined.

(** C10 as stated fails: a body that sets confirm to the string `false`
    does not set it to true, yet the guard tests truthiness and lets it
    pass; the credential is issued, an id is allocated and the pod
    receives both artifacts, the index and the access-control document. *)
Lemma issue_accepts_any_truthy_confirm :
  let run :=
    VcRoutes.post_issue Sample.env
      {| VcRoutes.req_user := Sample.user;
         VcRoutes.req_body := VObj [("confirm", VStr "false")] |}
      world0 in
  status_of run = Some 201%Z /\
  uuids (snd run) = 1 /\
  map pw_url (pod (snd run))
  = [ "https://user.example.org/storage/credentials/urn:uuid:3f2b8c1e-5d4a-4e6f-9a7b-000000000000.jsonld";
      "https://user.example.org/storage/credentials/urn:uuid:3f2b8c1e-5d4a-4e6f-9a7b-000000000000.ttl";
      "https://user.example.org/storage/credentials/index.ttl";
      "https://user.example.org/storage/credentials/urn:uuid:3f2b8c1e-5d4a-4e6f-9a7b-000000000000.jsonld.acl" ].
Proof.
  repeat split.
Qed.

(** C9, as the code has it. A revoke call with an empty or missing reason is
    answered 400 and leaves the world untouched: nothing is recorded, and
    the registry lists what it listed before. The error is `Revocation
    reason required` when the call names a credential, and `Missing VC ID`
    when it does not: the id is tested first. *)
Theorem revoke_without_reason_is_rejected
  (E : Env) (req : VcRoutes.Request) (w : World) :
  truthy (get (VcRoutes.req_body req) "reason") = false ->
  let error :=
    if truthy (get (VcRoutes.req_body req) "vcId")
    then "Revocation reason required"
    else "Missing VC ID" in
  VcRoutes.post_revoke E req w
  = (inr {| VcRoutes.res_status := 400;
            VcRoutes.res_json := VObj [("error", VStr error)] |},
     w) /\
  VcRoutes.get_list E req (snd (VcRoutes.post_revoke E req w))
  = VcRoutes.get_list E req w.
Proof.
  intros Hreason error. subst error. unfold VcRoutes.post_revoke.
  rewrite Hreason.
  destruct (truthy (get (VcRoutes.req_body req) "vcId")); split; reflexivity.
Qed.

Lemma revoke_without_reason_is_rejected_witness :
  let req :=
    {| VcRoutes.req_user := Sample.user;
       VcRoutes.req_body :=
         VObj [ ("vcId", VStr "urn:uuid:pip-benefit-award-001");
                ("reason", VStr "") ] |} in
  VcRoutes.post_revoke Sample.env req world0
  = (inr {| VcRoutes.res_status := 400;
            VcRoutes.res_json := VObj [("error", VStr "Revocation reason required")] |},
     world0) /\
  VcRoutes.get_list Sample.env req (snd (VcRoutes.post_revoke Sample.env req world0))
  = VcRoutes.get_list Sample.env req world0.
Proof.
  apply (revoke_without_reason_is_rejected Sample.env
           {| VcRoutes.req_user := Sample.user;
              VcRoutes.req_body :=
                VObj [ ("vcId", VStr "urn:uuid:pip-benefit-award-001");
                       ("reason", VStr "") ] |} world0).
  reflexivity.
Defined.

(** C9 as stated fails: a revoke call with an empty reason and no vcId is
    rejected for the missing id, not for the reason. *)
Lemma revoke_without_id_reports_missing_id :
  let run :=
    VcRoutes.post_revoke Sample.env
      {| VcRoutes.req_user := Sample.user;
         VcRoutes.req_body := VObj [("reason", VStr "")] |}
      world0 in
  status_of run = Some 400%Z /\
  json_of run = Some (VObj [("error", VStr "Missing VC ID")]) /\
  snd run = world0.
Proof.
  repeat split.
Qed.

(** The revoke handler answers 200 or 400, never anything else, and never
    throws; it touches neither the pod nor the error log. *)
Lemma revoke_answers_200_or_400 (E : Env) (req : VcRoutes.Request) (w : World) :
  exists res w',
    VcRoutes.post_revoke E req w = (inr res, w') /\
    (VcRoutes.res_status res = 200%Z \/ VcRoutes.res_status res = 400%Z) /\
    pod w' = pod w /\ errors w' = errors w.
Proof.
  unfold VcRoutes.post_revoke.
  destruct (truthy (get (VcRoutes.req_body req) "vcId"));
    [destruct (truthy (get (VcRoutes.req_body req) "reason"))|];
    eexists; eexists; (split; [reflexivity|]); cbn; auto.
Qed.




(** ** What the Turtle encoder leaves out *)

Lemma generateTurtleVc_runs (E : Env) (d : VcService.VcData) (w : World) :
  exists proofBlock w',
    VcService.generateTurtleVc E d w
    = (inr (render (VcService.turtleParts E d (toISOString E (clock w))
                      (toISOString E (S (clock w))) proofBlock)), w').
Proof.
  unfold VcService.generateTurtleVc, bind, Date_now, random_next, ret.
  destruct (negb (truthy (VcService.preview_flag d)));
    eexists; eexists; reflexivity.
Qed.

(** The text around one substituted value. *)
Lemma render_around (before after : list part) (q1a s1 v s2 q2b : string) :
  render (before ++ Quasi (q1a ++ s1) :: Subst v :: Quasi (s2 ++ q2b) :: after)
  = (render before ++ q1a) ++ (s1 ++ v ++ s2) ++ (q2b ++ render after).
Proof.
  rewrite render_app, !render_cons. cbn [part_text].
  now rewrite !append_assoc.
Qed.

(** C6, on the code. The Turtle encoder writes a claim value between two
    double quotes exactly as it is. For a benefit type that contains a
    double quote, or a line feed, the quoted text is not a string literal of
    the Turtle grammar. *)
Theorem turtle_claim_values_are_written_raw :
  (forall (E : Env) (d : VcService.VcData) (w : World),
     exists pre post w',
       VcService.generateTurtleVc E d w
       = (inr (pre ++ ("schema:benefitType " ++ dq
                       ++ toStr (VcService.benefitType (VcService.benefitData d))
                       ++ dq ++ " ;") ++ post), w')) /\
  let quoted := dq ++ "Personal " ++ dq ++ "Independence" ++ dq ++ " Payment" ++ dq in
  let run := VcService.generateTurtleVc Sample.env Sample.quotedData world0 in
  (exists text,
     fst run = inr text /\
     mentions ("schema:benefitType " ++ quoted ++ " ;") text = true) /\
  Turtle.STRING_LITERAL_QUOTE quoted = false /\
  Turtle.STRING_LITERAL_QUOTE (dq ++ "Daily Living" ++ lf ++ "Mobility" ++ dq) = false /\
  Turtle.STRING_LITERAL_QUOTE (dq ++ "PIP" ++ dq) = true.
Proof.
  split.
  - intros E d w.
    destruct (generateTurtleVc_runs E d w) as (pb & w' & Hrun).
    set (ps := VcService.turtleParts E d (toISOString E (clock w))
                 (toISOString E (S (clock w))) pb) in Hrun.
    exists (render (firstn 12 ps) ++ ("> ;" ++ lf ++ "    ")).
    exists ((lf ++ "    schema:amount " ++ dq) ++ render (skipn 15 ps)).
    exists w'. rewrite Hrun. f_equal. f_equal.
    refine (eq_trans _
              (render_around (firstn 12 ps) (skipn 15 ps)
                 ("> ;" ++ lf ++ "    ") ("schema:benefitType " ++ dq)
                 (toStr (VcService.benefitType (VcService.benefitData d)))
                 (dq ++ " ;") (lf ++ "    schema:amount " ++ dq))).
    reflexivity.
  - cbv zeta. split; [|repeat split].
    eexists. split; [reflexivity|]. vm_compute. reflexivity.
Qed.

(** C1, on the code. The Turtle encoder never looks at the components
    breakdown: its output is the same whatever the breakdown is. For the
    credential that POST /vc/issue builds, the JSON-LD credentialSubject
    carries the breakdown and the Turtle text carries none of it, while the
    benefit type and the total are in both. *)
Theorem turtle_encoding_omits_components :
  (forall (E : Env) (d : VcService.VcData) (c : value) (w : World),
     VcService.generateTurtleVc E (VcService.with_components d c) w
     = VcService.generateTurtleVc E d w) /\
  let doc := VcService.generateJsonLdVc Sample.env Sample.issuedData world0 in
  let ttl := VcService.generateTurtleVc Sample.env Sample.issuedData world0 in
  (exists vc,
     fst doc = inr vc /\
     get (get vc "credentialSubject") "components"
     = VObj [ ("dailyLiving", VStr "Standard - £68.10");
              ("mobility", VStr "Enhanced - £94.80") ] /\
     get (get vc "credentialSubject") "benefitType" = VStr "PIP" /\
     get (get vc "credentialSubject") "totalWeeklyAmount" = VStr "£162.90") /\
  (exists text,
     fst ttl = inr text /\
     mentions "Standard - £68.10" text = false /\
     mentions "Enhanced - £94.80" text = false /\
     mentions "dailyLiving" text = false /\
     mentions "mobility" text = false /\
     mentions "components" text = false /\
     mentions (dq ++ "PIP" ++ dq) text = true /\
     mentions (dq ++ "£162.90" ++ dq) text = true).
Proof.
  split; [|cbv zeta; split].
  - intros E d c w. reflexivity.
  - eexists. split; [reflexivity|]. repeat split.
  - eexists. split; [reflexivity|]. repeat split; vm_compute; reflexivity.
Qed.

(** * Further properties of the code *)

(** ** The verification method and the DID document *)

Lemma or_else_truthy_default (a b : value) :
  truthy b = true -> truthy (or_else a b) = true.
Proof.
  intros Hb. unfold or_else. destruct (truthy a) eqn:Ha; assumption.
Qed.

Lemma issuer_truthy (E : Env) : truthy (VcService.issuer E) = true.
Proof.
  apply or_else_truthy_default. reflexivity.
Qed.

Lemma generateProof_inr (E : Env) (vc proof : value) (w w' : World) :
  VcService.generateProof E vc w = (inr proof, w') ->
  exists text,
    JSON_stringify E vc 0 = Some text /\
    proof = VObj [ ("type", VStr "RsaSignature2018");
                   ("created", VStr (toISOString E (clock w)));
                   ("proofPurpose", VStr "assertionMethod");
                   ("verificationMethod", VStr (VcService.verificationMethod E));
                   ("jws", VStr ("mock-jws-signature-" ++ substring 0 16 (sha256hex E text))) ] /\
    pod w' = pod w /\ errors w' = errors w /\ clock w' = S (clock w) /\
    uuids w' = uuids w /\ randoms w' = randoms w.
Proof.
  unfold VcService.generateProof, VcService.generateMockSignature, bind, Date_now,
    ret, throw.
  destruct (JSON_stringify E vc 0) as [text|]; [|discriminate].
  intros [= <- <-]. exists text. repeat split.
Qed.

(** X3. The key reference of every generated proof is the id that the DID
    document publishes for its only verification method and lists as its
    assertion method; it is the issuer id followed by #key-1 exactly when
    SERVICE_DID_WEB is set to a non-empty string (the issuer falls back to a
    default, the key reference does not). *)
Theorem proof_key_is_the_published_key (E : Env) (SERVICE_DOMAIN : option string) :
  let doc := ServiceRoutes.didDocument E SERVICE_DOMAIN in
  (forall vc w proof w',
     VcService.generateProof E vc w = (inr proof, w') ->
     get proof "verificationMethod" = VStr (VcService.verificationMethod E)) /\
  get doc "assertionMethod" = VArr [VStr (VcService.verificationMethod E)] /\
  (exists method,
     get doc "verificationMethod" = VArr [method] /\
     get method "id" = VStr (VcService.verificationMethod E) /\
     get method "controller" = get doc "id") /\
  (VcService.verificationMethod E =? toStr (VcService.issuer E) ++ "#key-1")
  = truthy (env_value (SERVICE_DID_WEB E)).
Proof.
  cbv zeta. repeat split.
  - intros vc w proof w' H.
    destruct (generateProof_inr _ _ _ _ _ H) as (text & _ & -> & _). reflexivity.
  - eexists. repeat split.
  - unfold VcService.verificationMethod, VcService.issuer, or_else.
    destruct (SERVICE_DID_WEB E) as [[|c s]|]; cbn; try reflexivity.
    destruct (Ascii.eqb_spec c c); [|congruence].
    apply String.eqb_refl.
Qed.

(** ** Validation *)

Section ValidationFacts.

Import VcFormats.

Lemma find_none_all {A : Type} (f : A -> bool) (l : list A) :
  find f l = None -> forall x, In x l -> f x = false.
Proof.
  induction l as [|a l IH]; intros H x Hx; [contradiction|].
  cbn in H. destruct (f a) eqn:Ha; [discriminate|].
  destruct Hx as [<-|Hx]; [assumption | now apply IH].
Qed.

Lemma type_includes_inr (t : value) (x : string) (w w' : World) (b : bool) :
  type_includes t x w = (inr b, w') -> b = names_type t x /\ w' = w.
Proof.
  destruct t; cbn; try discriminate; now intros [= <- <-].
Qed.

(** X5. validateVc never answers false: it returns true or throws, and
    changes nothing. It returns true only for a value whose six required
    fields are all truthy, whose credentialSubject has a truthy id, and
    whose type is an array holding the string VerifiableCredential or a
    string containing it. *)
Theorem validateVc_accepts_only_complete_credentials
  (vc : value) (w w' : World) (r : bool) :
  validateVc vc w = (inr r, w') ->
  r = true /\ w' = w /\
  (forall field, In field required -> truthy (get vc field) = true) /\
  truthy (get (get vc "credentialSubject") "id") = true /\
  names_type (get vc "type") "VerifiableCredential" = true.
Proof.
  unfold validateVc. intros H.
  destruct (read_prop_cases vc "@context" w) as [[e He]|He].
  { erewrite bind_inl in H by exact He. discriminate. }
  erewrite bind_inr in H by exact He.
  destruct (find _ required) as [field|] eqn:Hfind; [discriminate|].
  destruct (truthy (get (get vc "credentialSubject") "id")) eqn:Hid;
    [|discriminate].
  cbn [negb] in H. unfold bind in H.
  destruct (type_includes (get vc "type") "VerifiableCredential" w)
    as [[e|b] w1] eqn:Ht; [discriminate|].
  apply type_includes_inr in Ht as [-> ->].
  destruct (names_type (get vc "type") "VerifiableCredential") eqn:Hn;
    [|discriminate].
  injection H as <- <-. repeat split.
  intros field Hin. pose proof (find_none_all _ _ Hfind field Hin) as Hf.
  now apply negb_false_iff in Hf.
Qed.

End ValidationFacts.

Lemma validateVc_accepts_only_complete_credentials_witness :
  true = true /\ world0 = world0 /\
  (forall field, In field VcFormats.required ->
                 truthy (get Fixtures.validVc field) = true) /\
  truthy (get (get Fixtures.validVc "credentialSubject") "id") = true /\
  names_type (get Fixtures.validVc "type") "VerifiableCredential" = true.
Proof.
  apply (validateVc_accepts_only_complete_credentials Fixtures.validVc world0 world0 true).
  reflexivity.
Defined.

(** The document generateJsonLdVc returns: its literal, the optional claims
    and, unless it is a preview, the proof. *)
Lemma generateJsonLdVc_inr (E : Env) (d : VcService.VcData) (vc : value)
  (w w' : World) :
  VcService.generateJsonLdVc E d w = (inr vc, w') ->
  get vc "@context" <> VUndefined /\
  truthy (get vc "@context") = true /\
  get vc "id" = VcService.id d /\
  get vc "type" = VArr [VStr "VerifiableCredential"; VStr "PIPBenefitCredential"] /\
  get vc "issuer" = VcService.issuer E /\
  get vc "issuanceDate" = VStr (toISOString E (clock w)) /\
  truthy (get vc "credentialSubject") = true /\
  get (get vc "credentialSubject") "id" = VcService.webid d /\
  has_key vc "proof" = negb (truthy (VcService.preview_flag d)) /\
  pod w' = pod w /\ errors w' = errors w /\ uuids w' = uuids w /\
  randoms w' = randoms w.
Proof.
  unfold VcService.generateJsonLdVc, VcService.generateProof,
    VcService.generateMockSignature, bind, Date_now, ret, throw.
  destruct (truthy (VcService.preview_flag d)); cbn [negb];
    destruct (truthy (VcService.components (VcService.benefitData d)));
    destruct (truthy (VcService.totalWeeklyAmount (VcService.benefitData d)));
    cbn [clock]; try destruct (JSON_stringify E _ 0);
    intros [= <- <-]; repeat split; discriminate.
Qed.

(** X4. Every document that generateJsonLdVc returns for a truthy id and a
    truthy subject id passes validateVc, provided the clock gave a date. *)
Theorem generated_credentials_validate
  (E : Env) (d : VcService.VcData) (vc : value) (w w' : World) :
  VcService.generateJsonLdVc E d w = (inr vc, w') ->
  truthy (VcService.id d) = true ->
  truthy (VcService.webid d) = true ->
  toISOString E (clock w) <> "" ->
  VcFormats.validateVc vc w' = (inr true, w').
Proof.
  intros Hrun Hid Hwebid Hdate.
  destruct (generateJsonLdVc_inr _ _ _ _ _ Hrun)
    as (Hctx0 & Hctx & Hi & Ht & Hiss & Hd & Hs & Hsid & _).
  unfold VcFormats.validateVc.
  erewrite bind_inr.
  2:{ destruct vc; try reflexivity; cbn in Hctx; discriminate. }
  cbn [find VcFormats.required].
  rewrite Hctx, Hi, Hid, Ht, Hiss, issuer_truthy, Hd, Hs. cbn [truthy negb].
  apply String.eqb_neq in Hdate. rewrite Hdate. cbn [negb].
  rewrite Hsid, Hwebid. reflexivity.
Qed.

Lemma generated_credentials_validate_witness :
  exists vc w',
    VcService.generateJsonLdVc Sample.env Sample.issuedData world0 = (inr vc, w') /\
    VcFormats.validateVc vc w' = (inr true, w').
Proof.
  eexists. eexists. split; [lazy; reflexivity|].
  apply (generated_credentials_validate Sample.env Sample.issuedData _ world0).
  - reflexivity.
  - reflexivity.
  - reflexivity.
  - discriminate.
Defined.

(** ** Reading back from the pod *)



Lemma getResource_inr (E : Env) (url : string) (user acceptType res : value)
  (w w' : World) :
  PodResources.getResource E url user acceptType w = (inr res, w') ->
  w' = w /\
  get res "status" = VNum 200 /\
  get (get res "data") "@context"
  = VArr [VStr "https://www.w3.org/2018/credentials/v1"] /\
  get (get res "data") "id" = VStr (PodResources.last_segment url) /\
  get (get res "data") "type"
  = VArr [VStr "VerifiableCredential"; VStr "PIPBenefitCredential"] /\
  get (get res "data") "issuer" = env_value (SERVICE_DID_WEB E) /\
  get (get res "data") "issuanceDate" = VUndefined /\
  get (get (get res "data") "credentialSubject") "id" = get user "webid" /\
  get (get (get res "data") "credentialSubject") "amount" = VStr "£90.10/week".
Proof.
  unfold PodResources.getResource.
  destruct (read_prop_cases user "webid" w) as [[e He]|He].
  - erewrite try_catch_inl by (erewrite bind_inl; eauto). discriminate.
  - erewrite try_catch_inr by (erewrite bind_inr by exact He; reflexivity).
    intros [= <- <-]. repeat split.
Qed.



(** X7. No credential that getResource returns passes validateVc: the mock
    credential has no issuanceDate, so validation throws for a missing
    required field (the id, when the url ends in a slash; the issuer, when
    SERVICE_DID_WEB is not set; the issuanceDate otherwise). *)
Theorem credentials_read_back_never_validate
  (E : Env) (url : string) (user acceptType res : value) (w w' : World) :
  PodResources.getResource E url user acceptType w = (inr res, w') ->
  exists field,
    VcFormats.validateVc (get res "data") w'
    = (inl ("Missing required field: " ++ field), w') /\
    In field ["id"; "issuer"; "issuanceDate"].
Proof.
  intros Hrun.
  destruct (getResource_inr _ _ _ _ _ _ _ Hrun)
    as (-> & _ & Hctx & Hid & Ht & Hiss & Hd & _).
  assert (Hdata : nullish (get res "data") = false).
  { revert Hctx. destruct (get res "data"); intros Hctx;
      try reflexivity; cbn in Hctx; discriminate Hctx. }
  unfold VcFormats.validateVc.
  erewrite bind_inr by (apply read_prop_ok; exact Hdata).
  cbn [find VcFormats.required]. rewrite Hctx, Hid, Ht, Hiss, Hd.
  cbn [truthy negb].
  destruct (PodResources.last_segment url =? "") eqn:Hseg; cbn [negb].
  { exists "id". split; [reflexivity | cbn; auto]. }
  destruct (truthy (env_value (SERVICE_DID_WEB E))); cbn [negb].
  - exists "issuanceDate". split; [reflexivity | cbn; auto].
  - exists "issuer". split; [reflexivity | cbn; auto].
Qed.

Lemma credentials_read_back_never_validate_witness :
  exists field,
    VcFormats.validateVc
      (get (VObj [ ("status", VNum 200);
                   ("data",
                    VObj [ ("@context", VArr [VStr "https://www.w3.org/2018/credentials/v1"]);
                           ("id", VStr "urn:uuid:test-vc.jsonld");
                           ("type", VArr [VStr "VerifiableCredential"; VStr "PIPBenefitCredential"]);
                           ("issuer", VStr "did:web:pip.gov.uk");
                           ("credentialSubject",
                            VObj [ ("id", VStr "https://user.example.org/profile/card#me");
                                   ("benefitType", VStr "PIP");
                                   ("amount", VStr "£90.10/week") ]) ]);
                   ("headers", VObj [("content-type", VStr "text/turtle")]) ]) "data")
      world0
    = (inl ("Missing required field: " ++ field), world0) /\
    In field ["id"; "issuer"; "issuanceDate"].
Proof.
  apply (credentials_read_back_never_validate Sample.env
           "https://pod.example.org/credentials/urn:uuid:test-vc.jsonld"
           Sample.user (VStr "text/turtle") _ world0 world0).
  reflexivity.
Defined.

(** ** Signing and conversion *)





(** X1. Signing adds to the unsigned document and signs what was there
    before: for a credential that is not a preview, generateJsonLdVc returns
    the very document it returns for the same data as a preview, plus a proof
    key. The signature in the proof is the mock signature of the text of
    that unsigned document (the proof is not part of what is signed), and
    the proof's created date is the clock reading after the issuance date.
    When the document has no JSON text the encoder throws. *)
Theorem signed_document_is_unsigned_document_plus_proof
  (E : Env) (d : VcService.VcData) (w : World) :
  truthy (VcService.preview_flag d) = false ->
  let asPreview :=
    {| VcService.id := VcService.id d;
       VcService.webid := VcService.webid d;
       VcService.benefitData := VcService.benefitData d;
       VcService.preview := VBool true |} in
  exists unsigned w1,
    VcService.generateJsonLdVc E asPreview w = (inr unsigned, w1) /\
    has_key unsigned "proof" = false /\
    match JSON_stringify E unsigned 0 with
    | Some text =>
        exists w2,
          VcService.generateJsonLdVc E d w
          = (inr (set unsigned "proof"
                    (VObj [ ("type", VStr "RsaSignature2018");
                            ("created", VStr (toISOString E (S (clock w))));
                            ("proofPurpose", VStr "assertionMethod");
                            ("verificationMethod", VStr (VcService.verificationMethod E));
                            ("jws",
                             VStr ("mock-jws-signature-"
                                   ++ substring 0 16 (sha256hex E text))) ])),
             w2)
    | None => exists e w2, VcService.generateJsonLdVc E d w = (inl e, w2)
    end.
Proof.
  intros Hp asPreview.
  unfold VcService.generateJsonLdVc, VcService.generateProof,
    VcService.generateMockSignature, bind, Date_now, ret, throw.
  rewrite Hp. subst asPreview.
  cbn [negb VcService.preview_flag VcService.preview truthy
       VcService.benefitData VcService.id VcService.webid clock].
  destruct (truthy (VcService.components (VcService.benefitData d)));
    destruct (truthy (VcService.totalWeeklyAmount (VcService.benefitData d)));
    eexists; eexists; (split; [reflexivity|]); (split; [reflexivity|]);
    destruct (JSON_stringify E _ 0); eexists; try eexists; reflexivity.
Qed.

Lemma signed_document_is_unsigned_document_plus_proof_witness :
  exists unsigned w1,
    VcService.generateJsonLdVc Sample.env Sample.quotedData world0 = (inr unsigned, w1) /\
    has_key unsigned "proof" = false /\
    match JSON_stringify Sample.env unsigned 0 with
    | Some text =>
        exists w2,
          VcService.generateJsonLdVc Sample.env Fixtures.signedQuotedData world0
          = (inr (set unsigned "proof"
                    (VObj [ ("type", VStr "RsaSignature2018");
                            ("created", VStr (toISOString Sample.env 1));
                            ("proofPurpose", VStr "assertionMethod");
                            ("verificationMethod",
                             VStr (VcService.verificationMethod Sample.env));
                            ("jws",
                             VStr ("mock-jws-signature-"
                                   ++ substring 0 16 (sha256hex Sample.env text))) ])),
             w2)
    | None =>
        exists e w2,
          VcService.generateJsonLdVc Sample.env Fixtures.signedQuotedData world0
          = (inl e, w2)
    end.
Proof.
  exact (signed_document_is_unsigned_document_plus_proof Sample.env
           Fixtures.signedQuotedData world0 eq_refl).
Defined.





(** ** Finding the pod *)

(** X10. discoverPodUrl never throws and always returns a non-empty string,
    without touching the pod: the origin of the webid followed by /storage/
    when the webid is a URL, and otherwise, after logging the failure, the
    configured DEFAULT_PDS_BASE or, when that is unset or empty, the
    built-in default. *)
Theorem discoverPodUrl_always_answers (E : Env) (webid : value) (w : World) :
  exists url w',
    PodService.discoverPodUrl E webid w = (inr (VStr url), w') /\
    (url =? "") = false /\
    pod w' = pod w /\
    match URL_origin E (toStr webid) with
    | Some origin => url = origin ++ "/storage/" /\ w' = w
    | None =>
        url = match DEFAULT_PDS_BASE E with
              | Some (String c base) => String c base
              | _ => "https://pds.solid.example.org"
              end /\
        errors w' = (errors w ++ [("Pod discovery error:", "Invalid URL")])%list
    end.
Proof.
  unfold PodService.discoverPodUrl, PodService.default_pds_base, or_else.
  destruct (URL_origin E (toStr webid)) as [origin|].
  - exists (origin ++ "/storage/"), w. repeat split.
    destruct origin; reflexivity.
  - destruct (DEFAULT_PDS_BASE E) as [[|c base]|];
      eexists; eexists; repeat split.
Qed.

(** ** Storing, as a whole *)

Lemma storeCredential_cases (E : Env) (podUrl : value) (vcId : string)
  (vcData : PodService.StoredVc) (user : value) (w : World) :
  exists w',
    (exists fullUrl rest,
       URL_resolve E ("credentials/" ++ vcId) (toStr podUrl) = Some fullUrl /\
       PodService.storeCredential E podUrl vcId vcData user w
       = (inr (storedResult fullUrl), w') /\
       pod w' = (pod w ++
                 [{| pw_url := fullUrl ++ ".jsonld";
                     pw_content := toStr (PodService.stringify2 E (PodService.jsonLd vcData));
                     pw_type := "application/ld+json" |};
                  {| pw_url := fullUrl ++ ".ttl";
                     pw_content := toStr (PodService.turtle vcData);
                     pw_type := "text/turtle" |}] ++ rest)%list /\
       (length rest <= 2)%nat) \/
    (exists e,
       PodService.storeCredential E podUrl vcId vcData user w
       = (inl ("Failed to store credential: " ++ e), w') /\
       errors w' = (errors w ++ [("Pod storage error:", e)])%list /\
       (pod w' = pod w \/
        exists fullUrl,
          URL_resolve E ("credentials/" ++ vcId) (toStr podUrl) = Some fullUrl /\
          pod w' = (pod w ++
                    [{| pw_url := fullUrl ++ ".jsonld";
                        pw_content :=
                          toStr (PodService.stringify2 E (PodService.jsonLd vcData));
                        pw_type := "application/ld+json" |}])%list)).
Proof.
  unfold PodService.storeCredential, new_URL.
  change (render [Quasi "credentials/"; Subst vcId]) with ("credentials/" ++ vcId).
  destruct (URL_resolve E ("credentials/" ++ vcId) (toStr podUrl)) as [fullUrl|].
  2:{ eexists. right. exists "Invalid URL". split.
      - erewrite try_catch_inl by reflexivity. reflexivity.
      - split; [reflexivity | left; reflexivity]. }
  destruct (putResource_cases E (fullUrl ++ ".jsonld")
              (PodService.stringify2 E (PodService.jsonLd vcData))
              "application/ld+json" user w)
    as [(r1 & w1 & H1 & Hpod1 & Herr1 & _)|[e H1]].
  2:{ eexists. right. exists e. split.
      - erewrite try_catch_inl
          by (erewrite bind_inr by reflexivity; erewrite bind_inl by exact H1;
              reflexivity).
        reflexivity.
      - split; [reflexivity | left; reflexivity]. }
  destruct (putResource_cases E (fullUrl ++ ".ttl") (PodService.turtle vcData)
              "text/turtle" user w1)
    as [(r2 & w2 & H2 & Hpod2 & Herr2 & _)|[e H2]].
  2:{ eexists. right. exists e. split.
      - erewrite try_catch_inl
          by (erewrite bind_inr by reflexivity; erewrite bind_inr by exact H1;
              erewrite bind_inl by exact H2; reflexivity).
        reflexivity.
      - cbn [pod errors]. rewrite Herr1. split; [reflexivity|].
        right. exists fullUrl. split; [reflexivity | exact Hpod1]. }
  destruct (updateCredentialsIndex_cases E podUrl vcId user w2)
    as (w3 & Hidx & Hout3).
  destruct (setCredentialPermissions_cases E podUrl vcId user w3)
    as (w4 & Hacl & Hout4 & _).
  assert (Hrest : exists rest, pod w4 = (pod w2 ++ rest)%list /\ (length rest <= 2)%nat).
  { destruct Hout3 as [wr3 Hp3 _|e3 Hp3 _]; destruct Hout4 as [wr4 Hp4 _|e4 Hp4 _];
      rewrite Hp4, Hp3.
    - exists [wr3; wr4]. rewrite <- app_assoc. split; [reflexivity | simpl; lia].
    - exists [wr3]. split; [reflexivity | simpl; lia].
    - exists [wr4]. split; [reflexivity | simpl; lia].
    - exists []. rewrite app_nil_r. split; [reflexivity | simpl; lia]. }
  destruct Hrest as (rest & Hpod4 & Hlen).
  exists w4. left. exists fullUrl, rest. split; [reflexivity|]. split; [|split].
  - erewrite try_catch_inr; [reflexivity|].
    erewrite bind_inr by reflexivity.
    erewrite bind_inr by exact H1.
    erewrite bind_inr by exact H2.
    erewrite bind_inr by exact Hidx.
    erewrite bind_inr by exact Hacl.
    reflexivity.
  - rewrite Hpod4, Hpod2, Hpod1. now rewrite <- !app_assoc.
  - exact Hlen.
Qed.

(** X8. Whatever it is given, storeCredential ends in one of two ways. It
    returns its success object, and then the pod has received the JSON-LD
    artifact, after it the Turtle artifact, and after them at most two more
    resources (the index and the access-control document). Or it throws
    `Failed to store credential: ...`, logged once as a pod storage error,
    and then the pod has received nothing or the JSON-LD artifact alone: a
    Turtle artifact is never stored without its JSON-LD twin, and nothing
    is ever removed from the pod. *)
Theorem storeCredential_writes_both_artifacts_or_throws
  (E : Env) (podUrl : value) (vcId : string) (vcData : PodService.StoredVc)
  (user : value) (w : World) :
  exists w',
    (exists fullUrl rest,
       URL_resolve E ("credentials/" ++ vcId) (toStr podUrl) = Some fullUrl /\
       PodService.storeCredential E podUrl vcId vcData user w
       = (inr (storedResult fullUrl), w') /\
       pod w' = (pod w ++
                 [{| pw_url := fullUrl ++ ".jsonld";
                     pw_content := toStr (PodService.stringify2 E (PodService.jsonLd vcData));
                     pw_type := "application/ld+json" |};
                  {| pw_url := fullUrl ++ ".ttl";
                     pw_content := toStr (PodService.turtle vcData);
                     pw_type := "text/turtle" |}] ++ rest)%list /\
       (length rest <= 2)%nat) \/
    (exists e,
       PodService.storeCredential E podUrl vcId vcData user w
       = (inl ("Failed to store credential: " ++ e), w') /\
       errors w' = (errors w ++ [("Pod storage error:", e)])%list /\
       (pod w' = pod w \/
        exists fullUrl,
          URL_resolve E ("credentials/" ++ vcId) (toStr podUrl) = Some fullUrl /\
          pod w' = (pod w ++
                    [{| pw_url := fullUrl ++ ".jsonld";
                        pw_content :=
                          toStr (PodService.stringify2 E (PodService.jsonLd vcData));
                        pw_type := "application/ld+json" |}])%list)).
Proof.
  exact (storeCredential_cases E podUrl vcId vcData user w).
Qed.

(** ** Issuing, as a whole *)




(** ** Previewing *)




(** ** Authentication *)

Section AuthFacts.

Variable jwt_decode : value -> value.
Variables lt_now ge_now : value -> bool.

Lemma user_of_webid (decoded : value) :
  get (Auth.user_of decoded) "webid" = get decoded "webid".
Proof.
  reflexivity.
Qed.

Lemma authMiddleware_string (h : string) (w : World) :
  truthy (VStr h) = true -> prefix "Bearer " h = true ->
  Auth.authMiddleware jwt_decode lt_now (VStr h) w
  = (inr (let decoded := jwt_decode (Auth.bearer_token h) in
          if negb (truthy decoded)
          then Auth.unauthorized "Invalid token format"
          else if negb (truthy (get decoded "webid"))
          then Auth.unauthorized "Token missing required webid claim"
          else if truthy (get decoded "exp") && lt_now (get decoded "exp")
          then Auth.unauthorized "Token has expired"
          else Auth.Next (Auth.user_of decoded)), w).
Proof.
  intros Ht Hp.
  unfold Auth.authMiddleware, Auth.starts_with_bearer, Auth.token_of,
    try_catch, bind, ret.
  rewrite Ht, Hp. cbv beta iota delta [negb].
  destruct (truthy (jwt_decode (Auth.bearer_token h))); [|reflexivity].
  destruct (truthy (get (jwt_decode (Auth.bearer_token h)) "webid")); [|reflexivity].
  destruct (truthy (get (jwt_decode (Auth.bearer_token h)) "exp")
            && lt_now (get (jwt_decode (Auth.bearer_token h)) "exp")); reflexivity.
Qed.

Lemma authMiddleware_rejects (authHeader : value) (w : World) :
  match authHeader with
  | VStr h => truthy (VStr h) && prefix "Bearer " h
  | _ => false
  end = false ->
  exists res w',
    Auth.authMiddleware jwt_decode lt_now authHeader w = (inr (Auth.Rejected res), w') /\
    VcRoutes.res_status res = 401%Z /\ pod w' = pod w.
Proof.
  intros H.
  unfold Auth.authMiddleware, Auth.starts_with_bearer, try_catch, bind, ret, throw.
  destruct authHeader as [| |b|n|h|l|o];
    try (eexists; eexists; repeat split; fail).
  - destruct b; eexists; eexists; repeat split.
  - cbn [truthy]. destruct (negb (n =? 0)%Z); eexists; eexists; repeat split.
  - destruct (truthy (VStr h)); cbn [negb andb] in *;
      [rewrite H|]; eexists; eexists; repeat split.
Qed.

End AuthFacts.

(** X13. authMiddleware never throws and never touches the pod. It lets a
    request pass only when the Authorization header is a string that starts
    with `Bearer `, and then with the world untouched and with a user object
    whose webid is truthy, built from the decoded second word of the header;
    every other request is answered 401. This is what the handlers behind
    it rely on when they read req.user.webid. *)
Theorem authMiddleware_passes_only_tokens_with_a_webid
  (jwt_decode : value -> value) (lt_now : value -> bool)
  (authHeader : value) (w : World) :
  exists out w',
    Auth.authMiddleware jwt_decode lt_now authHeader w = (inr out, w') /\
    pod w' = pod w /\
    match out with
    | Auth.Next user =>
        w' = w /\
        truthy (get user "webid") = true /\
        exists h,
          authHeader = VStr h /\ prefix "Bearer " h = true /\
          user = Auth.user_of (jwt_decode (Auth.bearer_token h)) /\
          (truthy (get (jwt_decode (Auth.bearer_token h)) "exp")
           && lt_now (get (jwt_decode (Auth.bearer_token h)) "exp")) = false
    | Auth.Rejected res => VcRoutes.res_status res = 401%Z
    end.
Proof.
  destruct (match authHeader with
            | VStr h => truthy (VStr h) && prefix "Bearer " h
            | _ => false
            end) eqn:Hh.
  - destruct authHeader as [| |b|n|h|l|o]; try discriminate.
    apply andb_true_iff in Hh. destruct Hh as [Ht Hp].
    rewrite (authMiddleware_string jwt_decode lt_now h w Ht Hp).
    eexists. eexists. split; [reflexivity|]. split; [reflexivity|].
    cbv zeta.
    destruct (truthy (jwt_decode (Auth.bearer_token h))); [|reflexivity].
    destruct (truthy (get (jwt_decode (Auth.bearer_token h)) "webid")) eqn:Hw;
      [|reflexivity].
    destruct (truthy (get (jwt_decode (Auth.bearer_token h)) "exp")
              && lt_now (get (jwt_decode (Auth.bearer_token h)) "exp")) eqn:He;
      [reflexivity|].
    cbn [negb]. split; [reflexivity|]. split; [exact Hw|].
    exists h. repeat split; assumption.
  - destruct (authMiddleware_rejects jwt_decode lt_now authHeader w Hh)
      as (res & w' & Hrun & Hs & Hp).
    exists (Auth.Rejected res), w'. repeat split; assumption.
Qed.

Lemma optionalAuth_cases (jwt_decode : value -> value) (ge_now : value -> bool)
  (authHeader : value) (w : World) :
  Auth.optionalAuth jwt_decode ge_now authHeader w = (inr (Auth.Next VUndefined), w) \/
  exists h,
    authHeader = VStr h /\ truthy (VStr h) = true /\ prefix "Bearer " h = true /\
    truthy (jwt_decode (Auth.bearer_token h)) = true /\
    truthy (get (jwt_decode (Auth.bearer_token h)) "webid") = true /\
    (negb (truthy (get (jwt_decode (Auth.bearer_token h)) "exp"))
     || ge_now (get (jwt_decode (Auth.bearer_token h)) "exp")) = true /\
    Auth.optionalAuth jwt_decode ge_now authHeader w
    = (inr (Auth.Next (Auth.user_of (jwt_decode (Auth.bearer_token h)))), w).
Proof.
  unfold Auth.optionalAuth, Auth.starts_with_bearer, Auth.token_of,
    try_catch, bind, ret, throw.
  destruct authHeader as [| |b|n|h|l|o]; try (left; reflexivity).
  - destruct b; left; reflexivity.
  - cbn [truthy]. destruct (negb (n =? 0)%Z); left; reflexivity.
  - destruct (truthy (VStr h)) eqn:Ht; [|left; reflexivity].
    destruct (prefix "Bearer " h) eqn:Hp; [|left; reflexivity].
    cbn [negb].
    destruct (truthy (jwt_decode (Auth.bearer_token h))) eqn:Hd; [|left; reflexivity].
    destruct (truthy (get (jwt_decode (Auth.bearer_token h)) "webid")) eqn:Hw;
      [|left; reflexivity].
    destruct (negb (truthy (get (jwt_decode (Auth.bearer_token h)) "exp"))
              || ge_now (get (jwt_decode (Auth.bearer_token h)) "exp")) eqn:He;
      [|left; reflexivity].
    right. exists h. repeat split; assumption.
Qed.

(** X14. optionalAuth never rejects and never throws, and it is no more
    generous than authMiddleware: provided an expiry that is not before now
    is never also before now, a request to which optionalAuth attaches a
    user is let through by authMiddleware with the same user. *)
Theorem optionalAuth_attaches_only_users_authMiddleware_accepts
  (jwt_decode : value -> value) (lt_now ge_now : value -> bool)
  (authHeader : value) (w : World) :
  (forall v, ge_now v = true -> lt_now v = false) ->
  exists user,
    Auth.optionalAuth jwt_decode ge_now authHeader w = (inr (Auth.Next user), w) /\
    (nullish user = false ->
     Auth.authMiddleware jwt_decode lt_now authHeader w = (inr (Auth.Next user), w)).
Proof.
  intros Hnow.
  destruct (optionalAuth_cases jwt_decode ge_now authHeader w)
    as [Hrun|(h & -> & Ht & Hp & Hd & Hw & He & Hrun)].
  - exists VUndefined. split; [exact Hrun | discriminate].
  - eexists. split; [exact Hrun|]. intros _.
    rewrite (authMiddleware_string jwt_decode lt_now h w Ht Hp).
    cbv zeta. rewrite Hd, Hw. cbn [negb].
    destruct (truthy (get (jwt_decode (Auth.bearer_token h)) "exp")); [|reflexivity].
    cbn [negb orb] in He. rewrite (Hnow _ He). reflexivity.
Qed.

Lemma optionalAuth_attaches_only_users_authMiddleware_accepts_witness :
  exists user,
    Auth.optionalAuth (fun _ => Sample.user) (fun _ => true)
      (VStr "Bearer header.payload.signature") world0
    = (inr (Auth.Next user), world0) /\
    (nullish user = false ->
     Auth.authMiddleware (fun _ => Sample.user) (fun _ => false)
       (VStr "Bearer header.payload.signature") world0
     = (inr (Auth.Next user), world0)).
Proof.
  exact (optionalAuth_attaches_only_users_authMiddleware_accepts
           (fun _ => Sample.user) (fun _ => false) (fun _ => true)
           (VStr "Bearer header.payload.signature") world0
           (fun _ _ => eq_refl)).
Defined.

(** ** Uncaught failures *)

(** X15. Behind asyncHandler, a handler that returns is answered with its
    own response and nothing else happens; a handler that throws is
    answered by errorHandler with status 500 and a body that, outside
    development, has the error message (or `Internal Server Error` for an
    empty one) and the status and nothing else, after one line on the
    console; the pod is as the handler left it. *)
Theorem asyncHandler_answers_a_throw_with_500
  (NODE_ENV : option string) (fn : M VcRoutes.Response) (w : World) :
  VcFormats.is_string (env_value NODE_ENV) "development" = false ->
  match fn w with
  | (inr res, w1) =>
      ErrorHandler.asyncHandler NODE_ENV fn w
      = (inr {| ErrorHandler.reply_status := VNum (VcRoutes.res_status res);
                ErrorHandler.reply_body := VcRoutes.res_json res |}, w1)
  | (inl e, w1) =>
      exists w2,
        ErrorHandler.asyncHandler NODE_ENV fn w
        = (inr {| ErrorHandler.reply_status := VNum 500;
                  ErrorHandler.reply_body :=
                    VObj [ ("error",
                            VStr (if e =? "" then "Internal Server Error" else e));
                           ("status", VNum 500) ] |}, w2) /\
        pod w2 = pod w1 /\
        errors w2 = (errors w1 ++ [("Error:", e)])%list
  end.
Proof.
  intros Hdev.
  unfold ErrorHandler.asyncHandler, ErrorHandler.errorHandler, try_catch, bind, ret.
  destruct (fn w) as [[e|res] w1]; [|reflexivity].
  rewrite Hdev. unfold console_error.
  eexists. split; [destruct e as [|c e]; reflexivity|].
  split; reflexivity.
Qed.

Lemma asyncHandler_answers_a_throw_with_500_witness :
  exists w2,
    ErrorHandler.asyncHandler (Some "test") (throw "Invalid URL") world0
    = (inr {| ErrorHandler.reply_status := VNum 500;
              ErrorHandler.reply_body :=
                VObj [ ("error", VStr "Invalid URL"); ("status", VNum 500) ] |}, w2) /\
    pod w2 = pod world0 /\
    errors w2 = (errors world0 ++ [("Error:", "Invalid URL")])%list.
Proof.
  exact (asyncHandler_answers_a_throw_with_500 (Some "test") (throw "Invalid URL")
           world0 eq_refl).
Defined.

(** ** Deleting *)






(** ** Storing on the repository's pod *)


